(** * Shallow embedding of the property-search service (src/app.py)

    The Flask handlers are modelled as pure functions of the request
    arguments and of the database state.  Python exceptions are threaded
    through a small error monad; the PostgreSQL/PostGIS store is modelled
    as a list of rows together with the SQL evaluation of the exact
    statement text the handlers emit. *)

From Stdlib Require Import String Ascii List ZArith QArith Bool Lia Sorted.
Import ListNotations.
Open Scope string_scope.

(* ------------------------------------------------------------------ *)
(** ** Errors: Python exceptions as an error monad *)

Inductive exn : Type :=
  | ValueError (msg : string)
  | TypeError (msg : string)
  | KeyError (msg : string)
  | DbError (msg : string).

Definition exn_message (e : exn) : string :=
  match e with ValueError m | TypeError m | KeyError m | DbError m => m end.

Inductive result (A : Type) : Type :=
  | Ok (a : A)
  | Raise (e : exn).
Arguments Ok {A} a.
Arguments Raise {A} e.

Definition rbind {A B} (m : result A) (k : A -> result B) : result B :=
  match m with Ok a => k a | Raise e => Raise e end.

Notation "x <- m ;; k" := (rbind m (fun x => k))
  (at level 61, m at next level, right associativity).

(** HTTP responses: a status code and either the success payload or the
    [{"error": msg}] shape. *)
Inductive body (A : Type) : Type :=
  | Success (a : A)
  | ErrorBody (msg : string).
Arguments Success {A} a.
Arguments ErrorBody {A} msg.

Record response (A : Type) : Type := Response { status : Z; payload : body A }.
Arguments Response {A} status payload.
Arguments status {A} r.
Arguments payload {A} r.

(* ------------------------------------------------------------------ *)
(** ** Python truthiness of the parsed optional filters *)

Definition truthy_int (o : option Z) : bool :=
  match o with Some z => negb (Z.eqb z 0) | None => false end.

Definition truthy_float (o : option Q) : bool :=
  match o with Some q => negb (Qeq_bool q 0) | None => false end.

Definition truthy_str (o : option string) : bool :=
  match o with Some s => negb (String.eqb s "") | None => false end.

(* ------------------------------------------------------------------ *)
(** ** Data model: rows of the [properties] table *)

(** A PostGIS geometry point: x is the longitude, y the latitude. *)
Record point : Type := Point { px : Q; py : Q; srid : Z }.

(** [ST_GeomFromText('POINT(%s %s)', 4326)] with the two bound values. *)
Definition st_geom_from_point_text (x y : Q) : point := Point x y 4326.

Record property : Type := Property {
  id : Z;
  address : string;
  price : Q;
  bedrooms : option Q;
  bathrooms : option Q;
  square_feet : option Q;
  property_type : option string;
  listing_status : option string;
  location : option point;
  created_at : Z
}.

(** The database as seen through one connection. *)
Record db : Type := Db {
  db_up : bool;                  (* the server accepts connections *)
  db_table : bool;               (* table [properties] exists *)
  db_rows : list property;       (* table [properties], in storage order *)
  db_next_id : Z;                (* next value of the [id] serial *)
  db_default_status : option string;  (* column default of listing_status *)
  db_clock : Z;                  (* NOW() used for created_at *)
  db_version : string;           (* version() *)
  db_name : string;              (* current_database() *)
  db_user : string;              (* current_user *)
  db_postgis : option string     (* PostGIS_Version(), None: not installed *)
}.

Definition connect (d : db) : result unit :=
  if db_up d then Ok tt else Raise (DbError "could not connect to server").

Definition table_exists (d : db) : result unit :=
  if db_table d then Ok tt
  else Raise (DbError "relation properties does not exist").

(* ------------------------------------------------------------------ *)
(** ** ORDER BY: insertion sort on a rational key *)

Section Order.
Context {A : Type} (key : A -> Q).

Fixpoint insert_by (x : A) (l : list A) : list A :=
  match l with
  | [] => [x]
  | y :: l' => if Qle_bool (key x) (key y) then x :: l else y :: insert_by x l'
  end.

Fixpoint sort_by (l : list A) : list A :=
  match l with
  | [] => []
  | x :: l' => insert_by x (sort_by l')
  end.
End Order.

(** [LIMIT n]: PostgreSQL rejects a negative count. *)
Definition sql_limit {A} (n : Z) (l : list A) : result (list A) :=
  if Z.ltb n 0 then Raise (DbError "LIMIT must not be negative")
  else Ok (firstn (Z.to_nat n) l).

(* ------------------------------------------------------------------ *)
(** ** Statement parameters and positional binding (psycopg2) *)

(** Values passed to [cur.execute] in the parameter sequence. *)
Inductive param : Type :=
  | PInt (z : Z)
  | PFloat (q : Q)
  | PStr (s : string).

(** Numeric reading of a bound value by the store (a quoted string
    compared with a numeric column is rejected in this model). *)
Definition param_num (p : param) : option Q :=
  match p with PInt z => Some (inject_Z z) | PFloat q => Some q | PStr _ => None end.

Section Binding.
(** How psycopg2 renders one adapted value into the statement text. *)
Variable render : param -> string.

(** psycopg2 client-side binding: every [%s] of the statement is
    replaced, left to right, by the next value of the sequence; the
    values left over are returned.  A value is inserted, never rescanned. *)
Fixpoint bind_params (s : string) (ps : list param)
    : option (string * list param) :=
  match s with
  | EmptyString => Some (EmptyString, ps)
  | String c rest =>
      if Ascii.eqb c "%" then
        match rest with
        | String c2 rest' =>
            if Ascii.eqb c2 "s" then
              match ps with
              | [] => None
              | p :: ps' =>
                  match bind_params rest' ps' with
                  | Some (t, ps'') => Some (render p ++ t, ps'')
                  | None => None
                  end
              end
            else
              match bind_params rest ps with
              | Some (t, ps') => Some (String c t, ps')
              | None => None
              end
        | EmptyString => Some (String c EmptyString, ps)
        end
      else
        match bind_params rest ps with
        | Some (t, ps') => Some (String c t, ps')
        | None => None
        end
  end.

(** [cur.execute(query, params)] succeeds in binding only when every
    value is consumed. *)
Definition bind_all (s : string) (ps : list param) : option string :=
  match bind_params s ps with
  | Some (t, []) => Some t
  | _ => None
  end.
End Binding.

(** Python [sep.join(xs)]. *)
Fixpoint join (sep : string) (xs : list string) : string :=
  match xs with
  | [] => ""
  | [x] => x
  | x :: xs' => x ++ sep ++ join sep xs'
  end.

(* ------------------------------------------------------------------ *)
(** ** search_properties: the dynamic condition builder (lines 237-256) *)

Definition base_condition : string := "listing_status = 'active'".

Definition search_builder (price_min price_max bedrooms : option Z)
    (bathrooms : option Q) (property_type : option string) (limit : Z)
    : list string * list param :=
  let conditions := [base_condition] in
  let params := [] in
  let '(conditions, params) :=
    match price_min with
    | Some v => if truthy_int price_min
                then (app conditions ["price >= %s"], app params [PInt v])
                else (conditions, params)
    | None => (conditions, params)
    end in
  let '(conditions, params) :=
    match price_max with
    | Some v => if truthy_int price_max
                then (app conditions ["price <= %s"], app params [PInt v])
                else (conditions, params)
    | None => (conditions, params)
    end in
  let '(conditions, params) :=
    match bedrooms with
    | Some v => if truthy_int bedrooms
                then (app conditions ["bedrooms >= %s"], app params [PInt v])
                else (conditions, params)
    | None => (conditions, params)
    end in
  let '(conditions, params) :=
    match bathrooms with
    | Some v => if truthy_float bathrooms
                then (app conditions ["bathrooms >= %s"], app params [PFloat v])
                else (conditions, params)
    | None => (conditions, params)
    end in
  let '(conditions, params) :=
    match property_type with
    | Some v => if truthy_str property_type
                then (app conditions ["property_type ILIKE %s"],
                      app params [PStr ("%" ++ v ++ "%")])
                else (conditions, params)
    | None => (conditions, params)
    end in
  (conditions, app params [PInt limit]).

Definition search_select : string :=
  "SELECT id, address, price, bedrooms, bathrooms, square_feet, property_type, listing_status, ST_X(location) as longitude, ST_Y(location) as latitude, created_at FROM properties WHERE ".

Definition search_tail : string := " ORDER BY price ASC LIMIT %s;".

(** The f-string of lines 258-269 (whitespace collapsed). *)
Definition search_query (conditions : list string) : string :=
  search_select ++ join " AND " conditions ++ search_tail.

(* ------------------------------------------------------------------ *)
(** ** The store's evaluation of the filtered-search statement *)

Definition lower_ascii (c : ascii) : ascii :=
  let n := nat_of_ascii c in
  if (Nat.leb 65 n && Nat.leb n 90)%bool then ascii_of_nat (n + 32) else c.

Fixpoint lower (s : string) : string :=
  match s with
  | EmptyString => EmptyString
  | String c s' => String (lower_ascii c) (lower s')
  end.

(** SQL [LIKE]: [%] matches any sequence, [_] one character, backslash
    escapes the next pattern character.  (A pattern ending in a lone
    backslash, an error in PostgreSQL, matches nothing here.) *)
Fixpoint like (p s : string) {struct p} : bool :=
  match p with
  | EmptyString => match s with EmptyString => true | _ => false end
  | String c p' =>
      if Ascii.eqb c "%" then
        (fix any (s : string) : bool :=
           like p' s || match s with EmptyString => false | String _ s' => any s' end) s
      else if Ascii.eqb c "_" then
        match s with EmptyString => false | String _ s' => like p' s' end
      else if Ascii.eqb c "\" then
        match p', s with
        | String e p'', String d s' => Ascii.eqb e d && like p'' s'
        | _, _ => false
        end
      else
        match s with
        | EmptyString => false
        | String d s' => Ascii.eqb c d && like p' s'
        end
  end.

Definition ilike (s p : string) : bool := like (lower p) (lower s).

(** [col >= v] / [col <= v] with SQL NULL semantics (NULL is not true). *)
Definition col_ge (col : option Q) (v : Q) : bool :=
  match col with Some x => Qle_bool v x | None => false end.

Definition bad_param {A} : result A := Raise (DbError "invalid input syntax").

(** One predicate template of [search_properties], with the values it
    consumes from the positional parameter sequence. *)
Definition eval_condition (c : string) (ps : list param)
    : result ((property -> bool) * list param) :=
  if String.eqb c base_condition then
    Ok (fun r => match listing_status r with
                 | Some s => String.eqb s "active" | None => false end, ps)
  else
    match ps with
    | [] => Raise (DbError "not enough parameters")
    | p :: ps' =>
        if String.eqb c "price >= %s" then
          match param_num p with
          | Some v => Ok (fun r => Qle_bool v (price r), ps') | None => bad_param end
        else if String.eqb c "price <= %s" then
          match param_num p with
          | Some v => Ok (fun r => Qle_bool (price r) v, ps') | None => bad_param end
        else if String.eqb c "bedrooms >= %s" then
          match param_num p with
          | Some v => Ok (fun r => col_ge (bedrooms r) v, ps') | None => bad_param end
        else if String.eqb c "bathrooms >= %s" then
          match param_num p with
          | Some v => Ok (fun r => col_ge (bathrooms r) v, ps') | None => bad_param end
        else if String.eqb c "property_type ILIKE %s" then
          match p with
          | PStr pat => Ok (fun r => match property_type r with
                                    | Some t => ilike t pat | None => false end, ps')
          | _ => bad_param
          end
        else Raise (DbError "syntax error")
    end.

(** [WHERE c1 AND c2 AND ...]: the conjunction of the conditions, each
    consuming its parameters in turn. *)
Fixpoint eval_where (cs : list string) (ps : list param)
    : result ((property -> bool) * list param) :=
  match cs with
  | [] => Ok (fun _ => true, ps)
  | c :: cs' =>
      pr <- eval_condition c ps ;;
      let '(p, ps') := pr in
      qr <- eval_where cs' ps' ;;
      let '(q, ps'') := qr in
      Ok (fun r => p r && q r, ps'')
  end.

(** The columns selected by the filtered search. *)
Record search_row : Type := SearchRow {
  s_id : Z; s_address : string; s_price : Q; s_bedrooms : option Q;
  s_bathrooms : option Q; s_square_feet : option Q;
  s_property_type : option string; s_listing_status : option string;
  s_longitude : option Q; s_latitude : option Q; s_created_at : Z
}.

Definition search_project (r : property) : search_row :=
  SearchRow (id r) (address r) (price r) (bedrooms r) (bathrooms r)
    (square_feet r) (property_type r) (listing_status r)
    (option_map px (location r)) (option_map py (location r)) (created_at r).

(** [cur.execute(search_query conditions, params); cur.fetchall()]:
    filter by the WHERE clause, [ORDER BY price ASC], then [LIMIT %s] with
    the last parameter. *)
Definition exec_search (d : db) (conditions : list string) (params : list param)
    : result (list search_row) :=
  _ <- table_exists d ;;
  pr <- eval_where conditions params ;;
  let '(pred, rest) := pr in
  match rest with
  | [PInt n] =>
      rows <- sql_limit n (sort_by price (filter pred (db_rows d))) ;;
      Ok (map search_project rows)
  | _ => Raise (DbError "wrong number of parameters")
  end.

(* ------------------------------------------------------------------ *)
(** ** Request handlers *)

(** Flask's [jsonify], taking [*args] and [**kwargs], called with one positional
    argument and the keyword arguments named in [kwargs]: it forwards both
    to [app.json.response], whose [_prepare_response_obj] raises
    [TypeError] when it is given positional and keyword arguments
    together, and otherwise serializes the one positional argument. *)
Definition jsonify {A} (obj : A) (kwargs : list string) : result A :=
  match kwargs with
  | [] => Ok obj
  | _ :: _ => Raise (TypeError "app.json.response() takes either args or kwargs, not both")
  end.

(** Query-string arguments: [None] when the key is absent. *)
Record search_args : Type := SearchArgs {
  q_price_min : option string; q_price_max : option string;
  q_bedrooms : option string; q_bathrooms : option string;
  q_property_type : option string; q_limit : option string
}.

Record nearby_args : Type := NearbyArgs {
  n_lat : option string; n_lng : option string;
  n_radius : option string; n_limit : option string
}.

Record filters : Type := Filters {
  price_range : option Z * option Z;
  min_bedrooms : option Z;
  min_bathrooms : option Q;
  f_property_type : option string
}.

Record search_payload : Type := SearchPayload {
  filters_applied : filters;
  total_found : nat;
  properties : list search_row
}.

(** The columns selected by the nearby search ([location IS NOT NULL]
    holds, so the coordinates are present). *)
Record nearby_row : Type := NearbyRow {
  nb_id : Z; nb_address : string; nb_price : Q; nb_bedrooms : option Q;
  nb_bathrooms : option Q; nb_square_feet : option Q;
  nb_property_type : option string; nb_listing_status : option string;
  nb_longitude : Q; nb_latitude : Q; distance_meters : Q; nb_created_at : Z
}.

Record nearby_payload : Type := NearbyPayload {
  search_center : Q * Q;            (* (latitude, longitude) *)
  radius_meters : Z;
  nb_total_found : nat;
  nb_properties : list nearby_row
}.

Section Service.
(** Python's [int(s)] and [float(s)] on a query-string value: [None]
    when they raise [ValueError]. *)
Variable parse_int : string -> option Z.
Variable parse_float : string -> option Q.
(** PostGIS [ST_Distance] between two geometries. *)
Variable st_distance : point -> point -> Q.

(** [request.args.get(k, type=int)]: a failed conversion gives None. *)
Definition arg_as_int (a : option string) : option Z :=
  match a with Some s => parse_int s | None => None end.

Definition arg_as_float (a : option string) : option Q :=
  match a with Some s => parse_float s | None => None end.

(** [int(request.args.get(k, dflt))] *)
Definition int_arg_or (a : option string) (dflt : Z) : result Z :=
  match a with
  | None => Ok dflt
  | Some s => match parse_int s with
              | Some z => Ok z
              | None => Raise (ValueError "invalid literal for int()")
              end
  end.

(** [float(request.args.get(k, dflt))] *)
Definition float_arg_or (a : option string) (dflt : Q) : result Q :=
  match a with
  | None => Ok dflt
  | Some s => match parse_float s with
              | Some q => Ok q
              | None => Raise (ValueError "could not convert string to float")
              end
  end.

(** GET /api/properties/search, lines 228-285 up to the [jsonify] call:
    the dict the handler builds from the rows [cur.fetchall()] returns. *)
Definition search_properties_dict (a : search_args) (d : db)
    : result search_payload :=
  let price_min := arg_as_int (q_price_min a) in
  let price_max := arg_as_int (q_price_max a) in
  let bedrooms := arg_as_int (q_bedrooms a) in
  let bathrooms := arg_as_float (q_bathrooms a) in
  let property_type := q_property_type a in
  limit0 <- int_arg_or (q_limit a) 20 ;;
  let limit := Z.min limit0 100 in
  let '(conditions, params) :=
    search_builder price_min price_max bedrooms bathrooms property_type limit in
  _ <- connect d ;;
  rows <- exec_search d conditions params ;;
  Ok (SearchPayload
        (Filters (price_min, price_max) bedrooms bathrooms property_type)
        (length rows) rows).

(** GET /api/properties/search (lines 225-289):
    [return jsonify({...}, default=serialize_result)], every exception
    caught by [except Exception]. *)
Definition search_properties (a : search_args) (d : db)
    : response search_payload :=
  let r :=
    p <- search_properties_dict a d ;;
    jsonify p ["default"]
  in
  match r with
  | Ok p => Response 200 (Success p)
  | Raise _ => Response 500 (ErrorBody "Search failed")
  end.

(** One row of [properties] against the nearby statement: [None] when
    the WHERE clause rejects it.  [ST_DWithin] on geometries holds when
    [ST_Distance] is at most the radius; mixed SRIDs are an error. *)
Definition nearby_candidate (center : point) (radius : Z) (r : property)
    : result (option nearby_row) :=
  match location r with
  | None => Ok None
  | Some p =>
      if Z.eqb (srid p) (srid center) then
        let dist := st_distance p center in
        if Qle_bool dist (inject_Z radius) then
          Ok (Some (NearbyRow (id r) (address r) (price r) (bedrooms r)
                      (bathrooms r) (square_feet r) (property_type r)
                      (listing_status r) (px p) (py p) dist (created_at r)))
        else Ok None
      else Raise (DbError "Operation on mixed SRID geometries")
  end.

Fixpoint nearby_scan (center : point) (radius : Z) (rs : list property)
    : result (list nearby_row) :=
  match rs with
  | [] => Ok []
  | r :: rs' =>
      o <- nearby_candidate center radius r ;;
      tl <- nearby_scan center radius rs' ;;
      Ok (match o with Some x => x :: tl | None => tl end)
  end.

(** The statement of lines 182-208 bound to
    [(lng, lat, lng, lat, radius, limit)]. *)
Definition exec_nearby (d : db) (lng lat : Q) (radius limit : Z)
    : result (list nearby_row) :=
  let center := st_geom_from_point_text lng lat in
  _ <- table_exists d ;;
  hits <- nearby_scan center radius (db_rows d) ;;
  sql_limit limit (sort_by distance_meters hits).

(** GET /api/properties/nearby, lines 174-217 up to the [jsonify] call:
    the dict the handler builds from the rows [cur.fetchall()] returns. *)
Definition find_nearby_properties_dict (a : nearby_args) (d : db)
    : result nearby_payload :=
  lat <- float_arg_or (n_lat a) (377749 # 10000) ;;
  lng <- float_arg_or (n_lng a) (-1224194 # 10000) ;;
  radius <- int_arg_or (n_radius a) 1000 ;;
  limit0 <- int_arg_or (n_limit a) 10 ;;
  let limit := Z.min limit0 100 in
  _ <- connect d ;;
  props <- exec_nearby d lng lat radius limit ;;
  Ok (NearbyPayload (lat, lng) radius (length props) props).

(** GET /api/properties/nearby (lines 171-223):
    [return jsonify({...}, default=serialize_result)], then
    [except ValueError] (400) before [except Exception] (500). *)
Definition find_nearby_properties (a : nearby_args) (d : db)
    : response nearby_payload :=
  let r :=
    p <- find_nearby_properties_dict a d ;;
    jsonify p ["default"]
  in
  match r with
  | Ok p => Response 200 (Success p)
  | Raise (ValueError _) => Response 400 (ErrorBody "Invalid coordinates or radius")
  | Raise _ => Response 500 (ErrorBody "Search failed")
  end.

(* ---------------------------------------------------------------- *)
(** *** Thresholds shared by both searches *)

(** The effective limit of a search: [min(int(limit or dflt), 100)]. *)
Definition effective_limit (a : option string) (dflt : Z) : result Z :=
  l <- int_arg_or a dflt ;; Ok (Z.min l 100).

End Service.

(* ------------------------------------------------------------------ *)
(** ** POST /api/properties *)

(** A JSON document as returned by [request.get_json()]. *)
#[warnings="-register-all"]
Inductive json : Type :=
  | JNull
  | JBool (b : bool)
  | JNum (q : Q)
  | JStr (s : string)
  | JArr (l : list json)
  | JObj (fields : list (string * json)).

Fixpoint is_prefix (p s : string) : bool :=
  match p, s with
  | EmptyString, _ => true
  | String c p', String d s' => Ascii.eqb c d && is_prefix p' s'
  | String _ _, EmptyString => false
  end.

Fixpoint contains (needle hay : string) : bool :=
  is_prefix needle hay ||
  match hay with EmptyString => false | String _ hay' => contains needle hay' end.

Definition lookup_key (k : string) (kvs : list (string * json)) : option json :=
  match find (fun kv => String.eqb (fst kv) k) kvs with
  | Some kv => Some (snd kv)
  | None => None
  end.

(** Python [field in data] on the decoded document. *)
Definition py_in (field : string) (data : json) : result bool :=
  match data with
  | JObj kvs => Ok (match lookup_key field kvs with Some _ => true | None => false end)
  | JArr l => Ok (existsb (fun v => match v with
                                  | JStr s => String.eqb s field
                                  | _ => false end) l)
  | JStr s => Ok (contains field s)
  | _ => Raise (TypeError "argument of type is not iterable")
  end.

(** [all(field in data for field in fields)], short-circuiting. *)
Fixpoint py_all_in (fields : list string) (data : json) : result bool :=
  match fields with
  | [] => Ok true
  | f :: fs => b <- py_in f data ;; if b then py_all_in fs data else Ok false
  end.

(** [data[k]] *)
Definition py_getitem (data : json) (k : string) : result json :=
  match data with
  | JObj kvs => match lookup_key k kvs with
                | Some v => Ok v
                | None => Raise (KeyError k)
                end
  | _ => Raise (TypeError "indices must be integers")
  end.

(** [data.get(k, dflt)]; Python None is [JNull]. *)
Definition py_get (data : json) (k : string) (dflt : json) : result json :=
  match data with
  | JObj kvs => match lookup_key k kvs with Some v => Ok v | None => Ok dflt end
  | _ => Raise (TypeError "object has no attribute get")
  end.

Definition required_fields : list string :=
  ["address"; "price"; "latitude"; "longitude"].

(** The parameter tuple of the INSERT (lines 311-320), in that order. *)
Record insert_args : Type := InsertArgs {
  ia_address : json; ia_price : json; ia_bedrooms : json;
  ia_bathrooms : json; ia_square_feet : json; ia_property_type : json;
  ia_longitude : json; ia_latitude : json
}.

(** Column coercions by the store: a value of the wrong JSON kind is
    rejected by the INSERT. *)
Definition as_text (j : json) : result string :=
  match j with JStr s => Ok s | _ => Raise (DbError "invalid input for text") end.

Definition as_num (j : json) : result Q :=
  match j with JNum q => Ok q | _ => Raise (DbError "invalid input for numeric") end.

Definition as_num_opt (j : json) : result (option Q) :=
  match j with
  | JNull => Ok None
  | JNum q => Ok (Some q)
  | _ => Raise (DbError "invalid input for numeric")
  end.

Definition as_text_opt (j : json) : result (option string) :=
  match j with
  | JNull => Ok None
  | JStr s => Ok (Some s)
  | _ => Raise (DbError "invalid input for text")
  end.

Definition db_append (d : db) (row : property) : db :=
  Db (db_up d) (db_table d) (db_rows d ++ [row]) (db_next_id d + 1)
     (db_default_status d) (db_clock d) (db_version d) (db_name d)
     (db_user d) (db_postgis d).

(** [INSERT INTO properties (...) VALUES (%s, ..., ST_GeomFromText('POINT(%s %s)', 4326))
    RETURNING id] followed by [conn.commit()]. *)
Definition db_insert (d : db) (a : insert_args) : result (Z * db) :=
  _ <- table_exists d ;;
  addr <- as_text (ia_address a) ;;
  pr <- as_num (ia_price a) ;;
  bd <- as_num_opt (ia_bedrooms a) ;;
  bt <- as_num_opt (ia_bathrooms a) ;;
  sq <- as_num_opt (ia_square_feet a) ;;
  pt <- as_text_opt (ia_property_type a) ;;
  x <- as_num (ia_longitude a) ;;
  y <- as_num (ia_latitude a) ;;
  let row := Property (db_next_id d) addr pr bd bt sq pt (db_default_status d)
               (Some (st_geom_from_point_text x y)) (db_clock d) in
  Ok (db_next_id d, db_append d row).

Record insert_payload : Type := InsertPayload {
  success : bool; property_id : Z; message : string
}.

(** Lines 291-333.  [body] is [None] when the request carries no JSON
    document ([request.get_json()] fails).  The database is left as it was
    unless the INSERT is committed. *)
Definition add_property (body : option json) (d : db)
    : response insert_payload * db :=
  let r :=
    data <- match body with
            | Some j => Ok j
            | None => Raise (TypeError "request body is not JSON")
            end ;;
    present <- py_all_in required_fields data ;;
    if negb present then Ok None
    else
      _ <- connect d ;;
      address <- py_getitem data "address" ;;
      price <- py_getitem data "price" ;;
      bedrooms <- py_get data "bedrooms" JNull ;;
      bathrooms <- py_get data "bathrooms" JNull ;;
      square_feet <- py_get data "square_feet" JNull ;;
      property_type <- py_get data "property_type" (JStr "Unknown") ;;
      longitude <- py_getitem data "longitude" ;;
      latitude <- py_getitem data "latitude" ;;
      res <- db_insert d (InsertArgs address price bedrooms bathrooms
                            square_feet property_type longitude latitude) ;;
      Ok (Some res)
  in
  match r with
  | Ok None => (Response 400 (ErrorBody "Missing required fields"), d)
  | Ok (Some (new_id, d')) =>
      (Response 201 (Success (InsertPayload true new_id "Property added successfully")), d')
  | Raise _ => (Response 500 (ErrorBody "Failed to add property"), d)
  end.

(* ------------------------------------------------------------------ *)
(** ** GET /health (lines 118-168) *)

Record health_database : Type := HealthDatabase {
  h_version : string; h_database : string; h_user : string; h_server_time : Z
}.

Record health_postgis : Type := HealthPostgis {
  hp_version : string; spatial_enabled : bool
}.

Record health_summary : Type := HealthSummary {
  total_properties : nat; properties_with_location : nat
}.

Inductive health_body : Type :=
  | Healthy (timestamp : string) (database : health_database)
            (postgis : health_postgis) (data_summary : health_summary)
  | Unhealthy (error : string) (timestamp : string).

(** (a) connection, then [SELECT version(), current_database(), current_user, NOW()]. *)
Definition probe_connectivity (d : db) : result health_database :=
  _ <- connect d ;;
  Ok (HealthDatabase (db_version d) (db_name d) (db_user d) (db_clock d)).

(** (b) [SELECT PostGIS_Version()]. *)
Definition probe_postgis (d : db) : result string :=
  match db_postgis d with
  | Some v => Ok v
  | None => Raise (DbError "function postgis_version() does not exist")
  end.

(** (c) [SELECT COUNT( * ), COUNT(location) FROM properties]. *)
Definition probe_counts (d : db) : result (nat * nat) :=
  _ <- table_exists d ;;
  Ok (length (db_rows d),
      length (filter (fun r => match location r with Some _ => true | None => false end)
                     (db_rows d))).

(** [now] is [datetime.now().isoformat()] on the server. *)
Definition health_check (d : db) (now : string) : response health_body :=
  let r :=
    db_info <- probe_connectivity d ;;
    postgis_version <- probe_postgis d ;;
    spatial_stats <- probe_counts d ;;
    Ok (Healthy now db_info (HealthPostgis postgis_version true)
          (HealthSummary (fst spatial_stats) (snd spatial_stats)))
  in
  match r with
  | Ok h => Response 200 (Success h)
  | Raise e => Response 500 (Success (Unhealthy (exn_message e) now))
  end.

(* ------------------------------------------------------------------ *)
(** ** serialize_result (lines 42-48), passed as [default=] to jsonify *)

Section Serializer.
(** Python's float, decimal.Decimal and datetime.datetime values, with
    [float(Decimal)] and [datetime.isoformat()]. *)
Variables (float decimal datetime : Type).
Variable float_of_decimal : decimal -> float.
Variable isoformat : datetime -> string.

(** Python values met in a result row; [PyOther] stands for any other
    class (date, bytes, memoryview, ...), named by its type. *)
#[warnings="-register-all"]
Inductive pyval : Type :=
  | PyNone
  | PyBool (b : bool)
  | PyInt (z : Z)
  | PyFloat (f : float)
  | PyStr (s : string)
  | PyList (l : list pyval)
  | PyDict (kvs : list (string * pyval))
  | PyDecimal (x : decimal)
  | PyDatetime (t : datetime)
  | PyOther (type_name : string).

Definition type_name (v : pyval) : string :=
  match v with
  | PyNone => "NoneType" | PyBool _ => "bool" | PyInt _ => "int"
  | PyFloat _ => "float" | PyStr _ => "str" | PyList _ => "list"
  | PyDict _ => "dict" | PyDecimal _ => "decimal.Decimal"
  | PyDatetime _ => "datetime.datetime" | PyOther n => n
  end.

Definition serialize_result (obj : pyval) : result pyval :=
  match obj with
  | PyDecimal x => Ok (PyFloat (float_of_decimal x))
  | PyDatetime t => Ok (PyStr (isoformat t))
  | _ => Raise (TypeError ("Object of type <class '" ++ type_name obj ++
                           "'> is not JSON serializable"))
  end.
End Serializer.

(* ------------------------------------------------------------------ *)
(** ** The filtered-search contract, following the spec's design note

    "build an ordered list of (predicate-template, bound-value) pairs;
    render the WHERE clause by joining templates with AND, and bind values
    in the same order".  A pair holds the template text before its [%s]
    and the value bound there; an optional input takes part when the
    handler's guard accepts it. *)
Definition spec_pair {A} (guard : option A -> bool) (mk : A -> param)
    (prefix : string) (o : option A) : list (string * param) :=
  match o with
  | Some v => if guard o then [(prefix, mk v)] else []
  | None => []
  end.

Definition spec_search_pairs (price_min price_max bedrooms : option Z)
    (bathrooms : option Q) (property_type : option string)
    : list (string * param) :=
  (spec_pair truthy_int PInt "price >= " price_min ++
   spec_pair truthy_int PInt "price <= " price_max ++
   spec_pair truthy_int PInt "bedrooms >= " bedrooms ++
   spec_pair truthy_float PFloat "bathrooms >= " bathrooms ++
   spec_pair truthy_str (fun v => PStr ("%" ++ v ++ "%")) "property_type ILIKE "
    property_type)%list.

(** Statement text with no [%] character: binding leaves it unchanged. *)
Fixpoint no_pct (s : string) : bool :=
  match s with
  | EmptyString => true
  | String c s' => negb (Ascii.eqb c "%") && no_pct s'
  end.

(* ------------------------------------------------------------------ *)
(** ** Concrete instances used to exercise the theorems *)

Definition digit (c : ascii) : option Z :=
  let n := nat_of_ascii c in
  if (Nat.leb 48 n && Nat.leb n 57)%bool then Some (Z.of_nat (n - 48)) else None.

(** Value and number of a non-empty run of decimal digits. *)
Fixpoint digits_acc (s : string) (acc : Z) (k : nat) : option (Z * nat) :=
  match s with
  | EmptyString => match k with O => None | _ => Some (acc, k) end
  | String c s' => match digit c with
                   | Some v => digits_acc s' (10 * acc + v) (S k)
                   | None => None
                   end
  end.

(** Decimal integers [-?[0-9]+]: the strings [int()] accepts that have no
    sign [+], blank or underscore. *)
Definition dec_int (s : string) : option Z :=
  match s with
  | String c s' =>
      if Ascii.eqb c "-" then option_map (fun p => Z.opp (fst p)) (digits_acc s' 0 0)
      else option_map fst (digits_acc s 0 0)
  | EmptyString => None
  end.

Fixpoint split_dot (s : string) : string * option string :=
  match s with
  | EmptyString => (EmptyString, None)
  | String c s' =>
      if Ascii.eqb c "." then (EmptyString, Some s')
      else let '(a, b) := split_dot s' in (String c a, b)
  end.

Definition unsigned_dec (s : string) : option Q :=
  match split_dot s with
  | (i, None) => option_map (fun p => inject_Z (fst p)) (digits_acc i 0 0)
  | (i, Some f) =>
      match digits_acc i 0 0, digits_acc f 0 0 with
      | Some (iv, _), Some (fv, k) =>
          Some (inject_Z iv + inject_Z fv / inject_Z (10 ^ Z.of_nat k))%Q
      | _, _ => None
      end
  end.

(** Decimal reals [-?[0-9]+(.[0-9]+)?], a subset of what [float()] accepts. *)
Definition dec_float (s : string) : option Q :=
  match s with
  | String c s' =>
      if Ascii.eqb c "-" then option_map Qopp (unsigned_dec s') else unsigned_dec s
  | EmptyString => None
  end.

Definition qabs (q : Q) : Q := if Qle_bool 0 q then q else (- q)%Q.

(** A planar distance (in coordinate units), standing for ST_Distance. *)
Definition manhattan (p q : point) : Q :=
  (qabs (px p - px q) + qabs (py p - py q))%Q.

(** The arguments the INSERT receives for a JSON object holding the four
    required keys. *)
Definition insert_args_of (kvs : list (string * json)) (addr pr la lo : json) : insert_args :=
  let get k dflt := match lookup_key k kvs with Some v => v | None => dflt end in
  InsertArgs addr pr (get "bedrooms" JNull) (get "bathrooms" JNull)
    (get "square_feet" JNull) (get "property_type" (JStr "Unknown")) lo la.

(** ** Sample requests and databases *)

(** The default search centre of the nearby search, as a stored point. *)
Definition sf_point : point := st_geom_from_point_text (-1224194 # 10000) (377749 # 10000).

Definition sample_row (n : Z) (loc : point) : property :=
  Property n "1 Market St" 500000 (Some 3) (Some 2) (Some 1500) (Some "house")
    (Some "active") (Some loc) 0.

Definition sample_db (rows : list property) : db :=
  Db true true rows (Z.of_nat (length rows) + 1) (Some "active") 0
     "PostgreSQL 15.4" "properties_db" "app" (Some "3.4").

Definition sample_db_down : db :=
  Db false true [] 1 (Some "active") 0 "PostgreSQL 15.4" "properties_db" "app" (Some "3.4").

Definition one_listing : db := sample_db [sample_row 1 sf_point].

(** Ten listings stored at longitude 2, latitude 1. *)
Definition ten_listings_at_2_1 : db :=
  sample_db (map (fun n => sample_row (Z.of_nat n) (st_geom_from_point_text 2 1)) (seq 1 10)).

Definition no_nearby_args : nearby_args := NearbyArgs None None None None.

Definition no_search_args : search_args := SearchArgs None None None None None None.

(** A dearer condominium, stored before the house of [sample_row 1]. *)
Definition condo_row : property :=
  Property 2 "5 Pine St" 900000 (Some 2) (Some 1) (Some 900) (Some "Condo")
    (Some "active") (Some sf_point) 0.

Definition two_listings : db := sample_db [condo_row; sample_row 1 sf_point].

(** The body of a POST placing a listing at latitude 1, longitude 2. *)
Definition body_at_1_2 : list (string * json) :=
  [("address", JStr "9 Elm St"); ("price", JNum 350000);
   ("latitude", JNum 1); ("longitude", JNum 2)].

(** ** Properties of the handlers' results *)

(** What the WHERE clause of the filtered search requires of a stored row,
    for the filters the handler received: [listing_status = 'active'] and
    each filter the handler keeps (a non-zero number, a non-empty text). *)
Definition filters_hold (pm pM bd : option Z) (bt : option Q) (pt : option string)
    (r : property) : Prop :=
  listing_status r = Some "active" /\
  (forall v, pm = Some v -> v <> 0%Z -> (inject_Z v <= price r)%Q) /\
  (forall v, pM = Some v -> v <> 0%Z -> (price r <= inject_Z v)%Q) /\
  (forall v, bd = Some v -> v <> 0%Z -> exists b, bedrooms r = Some b /\ (inject_Z v <= b)%Q) /\
  (forall v, bt = Some v -> ~ (v == 0)%Q -> exists b, bathrooms r = Some b /\ (v <= b)%Q) /\
  (forall v, pt = Some v -> v <> "" ->
     exists t, property_type r = Some t /\ ilike t ("%" ++ v ++ "%") = true).

(** Text with no LIKE wildcard or escape character ([%], [_], backslash). *)
Fixpoint wildcard_free (s : string) : bool :=
  match s with
  | EmptyString => true
  | String c s' =>
      negb (Ascii.eqb c "%") && negb (Ascii.eqb c "_") && negb (Ascii.eqb c "\") &&
      wildcard_free s'
  end.

(** * Proofs *)

(** ** Positional binding of the filtered-search statement *)

Lemma string_app_assoc (a b c : string) : (a ++ b) ++ c = a ++ (b ++ c).
Proof. induction a as [|x a IH]; simpl; [reflexivity | now rewrite IH]. Qed.

Lemma string_app_nil_r (a : string) : a ++ "" = a.
Proof. induction a as [|x a IH]; simpl; [reflexivity | now rewrite IH]. Qed.

Section BindingLemmas.
Variable render : param -> string.

Lemma bind_params_no_pct (s1 s : string) (ps : list param) :
  no_pct s1 = true ->
  bind_params render (s1 ++ s) ps =
  match bind_params render s ps with
  | Some (t, ps') => Some (s1 ++ t, ps')
  | None => None
  end.
Proof.
  induction s1 as [|c s1 IH]; simpl; intros H.
  - destruct (bind_params render s ps) as [[t ps']|]; reflexivity.
  - apply andb_prop in H as [Hc Hs]. apply negb_true_iff in Hc.
    rewrite Hc, (IH Hs).
    destruct (bind_params render s ps) as [[t ps']|]; reflexivity.
Qed.

Lemma bind_params_placeholder (s : string) (p : param) (ps : list param) :
  bind_params render ("%s" ++ s) (p :: ps) =
  match bind_params render s ps with
  | Some (t, ps') => Some (render p ++ t, ps')
  | None => None
  end.
Proof. reflexivity. Qed.

(** Each [" AND " ++ prefix ++ "%s"] takes exactly its own value. *)
Lemma bind_params_conditions (pairs : list (string * param)) (tail : string)
    (ps : list param) :
  forallb (fun pv => no_pct (fst pv)) pairs = true ->
  bind_params render
    (fold_right String.append "" (map (fun pv => " AND " ++ fst pv ++ "%s") pairs) ++ tail)
    (app (map snd pairs) ps) =
  match bind_params render tail ps with
  | Some (t, ps') =>
      Some (fold_right String.append ""
              (map (fun pv => " AND " ++ fst pv ++ render (snd pv)) pairs)
            ++ t, ps')
  | None => None
  end.
Proof.
  induction pairs as [|[pf v] pairs IH]; intros H;
    cbn [map fold_right forallb fst snd app] in *.
  - change ("" ++ tail) with tail.
    destruct (bind_params render tail ps) as [[t ps']|]; reflexivity.
  - apply andb_prop in H as [Hpf Hrest].
    rewrite !string_app_assoc.
    rewrite (bind_params_no_pct " AND " _ _ eq_refl), (bind_params_no_pct pf _ _ Hpf).
    rewrite bind_params_placeholder, (IH Hrest).
    destruct (bind_params render tail ps) as [[t ps']|]; [|reflexivity].
    rewrite !string_app_assoc. reflexivity.
Qed.

Lemma join_cons (sep x : string) (ys : list string) :
  join sep (x :: ys) = x ++ fold_right String.append "" (map (fun y => sep ++ y) ys).
Proof.
  revert x; induction ys as [|y ys IH]; intros x.
  - symmetry; apply string_app_nil_r.
  - change (join sep (x :: y :: ys)) with (x ++ sep ++ join sep (y :: ys)).
    cbn [map fold_right]. rewrite IH, !string_app_assoc. reflexivity.
Qed.
End BindingLemmas.

Lemma search_builder_pairs (price_min price_max bedrooms : option Z)
    (bathrooms : option Q) (property_type : option string) (limit : Z) :
  search_builder price_min price_max bedrooms bathrooms property_type limit =
  (base_condition :: map (fun pv => fst pv ++ "%s")
     (spec_search_pairs price_min price_max bedrooms bathrooms property_type),
   app (map snd (spec_search_pairs price_min price_max bedrooms bathrooms property_type))
     [PInt limit]).
Proof.
  unfold search_builder, spec_search_pairs, spec_pair.
  destruct price_min as [a|]; [destruct (truthy_int (Some a))|];
  destruct price_max as [b|]; try destruct (truthy_int (Some b));
  destruct bedrooms as [c|]; try destruct (truthy_int (Some c));
  destruct bathrooms as [e|]; try destruct (truthy_float (Some e));
  destruct property_type as [f|]; try destruct (truthy_str (Some f));
  reflexivity.
Qed.

Lemma spec_pair_no_pct {A} (g : option A -> bool) mk pf o :
  no_pct pf = true ->
  forallb (fun pv => no_pct (fst pv)) (spec_pair g mk pf o) = true.
Proof.
  intros H; unfold spec_pair; destruct o; [destruct (g _)|]; simpl;
    rewrite ?H; reflexivity.
Qed.

Lemma spec_search_pairs_no_pct pm pM bd bt pt :
  forallb (fun pv => no_pct (fst pv)) (spec_search_pairs pm pM bd bt pt) = true.
Proof.
  unfold spec_search_pairs; rewrite !forallb_app, !spec_pair_no_pct; reflexivity.
Qed.

(** C5: the statement [search_properties] renders binds, placeholder by
    placeholder, the values appended with its conditions, in the order
    price-min, price-max, bedrooms, bathrooms, property-type, and the limit
    last: the builder's two lists are the two projections of one ordered
    list of (template, value) pairs, and positional binding of the whole
    statement puts each pair's value into that pair's own template. *)
Theorem search_params_follow_conditions (price_min price_max bedrooms : option Z)
    (bathrooms : option Q) (property_type : option string) (limit : Z) :
  let pairs := spec_search_pairs price_min price_max bedrooms bathrooms property_type in
  search_builder price_min price_max bedrooms bathrooms property_type limit =
    (base_condition :: map (fun pv => fst pv ++ "%s") pairs,
     app (map snd pairs) [PInt limit]) /\
  forall render : param -> string,
    let '(conditions, params) :=
      search_builder price_min price_max bedrooms bathrooms property_type limit in
    bind_all render (search_query conditions) params =
    Some (search_select
          ++ join " AND " (base_condition
                             :: map (fun pv => fst pv ++ render (snd pv)) pairs)
          ++ " ORDER BY price ASC LIMIT " ++ render (PInt limit) ++ ";").
Proof.
  intros pairs. rewrite search_builder_pairs. split; [reflexivity|].
  intros render. fold pairs.
  unfold search_query, bind_all.
  rewrite !join_cons, !map_map.
  change search_tail with (" ORDER BY price ASC LIMIT " ++ ("%s" ++ ";")).
  rewrite !string_app_assoc.
  rewrite (bind_params_no_pct render search_select _ _ eq_refl).
  rewrite (bind_params_no_pct render base_condition _ _ eq_refl).
  rewrite (bind_params_conditions render pairs _ _ (spec_search_pairs_no_pct _ _ _ _ _)).
  rewrite (bind_params_no_pct render " ORDER BY price ASC LIMIT " _ _ eq_refl).
  rewrite bind_params_placeholder. reflexivity.
Qed.

(** ** Error monad and ORDER BY / LIMIT lemmas *)

Lemma rbind_Ok {A B} (m : result A) (k : A -> result B) (b : B) :
  rbind m k = Ok b -> exists a, m = Ok a /\ k a = Ok b.
Proof. destruct m as [a|e]; simpl; [eauto | discriminate]. Qed.

Ltac inv_ok H :=
  let a := fresh "v" in let Ha := fresh "Hv" in
  apply rbind_Ok in H; destruct H as [a [Ha H]].

Section SortLemmas.
Context {A : Type} (key : A -> Q).

Definition key_le (x y : A) : Prop := (key x <= key y)%Q.

Lemma In_insert_by x l z : In z (insert_by key x l) <-> x = z \/ In z l.
Proof.
  induction l as [|y l IH]; simpl.
  - tauto.
  - destruct (Qle_bool (key x) (key y)); simpl; [tauto|]. rewrite IH. tauto.
Qed.

Lemma In_sort_by l z : In z (sort_by key l) <-> In z l.
Proof.
  induction l as [|x l IH]; simpl; [tauto|]. rewrite In_insert_by, IH. tauto.
Qed.

Lemma insert_by_sorted x l : Sorted key_le l -> Sorted key_le (insert_by key x l).
Proof.
  induction 1 as [|y l Hs IH Hh]; simpl.
  - repeat constructor.
  - destruct (Qle_bool (key x) (key y)) eqn:E.
    + apply Qle_bool_iff in E. constructor; [constructor; auto | constructor; exact E].
    + assert (Hyx : key_le y x).
      { unfold key_le. apply Qlt_le_weak, Qnot_le_lt. intros C.
        apply Qle_bool_iff in C. congruence. }
      constructor; [exact IH|].
      destruct l as [|z l]; simpl; [constructor; exact Hyx|].
      inversion Hh; subst.
      destruct (Qle_bool (key x) (key z)); constructor; auto.
Qed.

Lemma sort_by_sorted l : Sorted key_le (sort_by key l).
Proof. induction l; simpl; [constructor | apply insert_by_sorted; auto]. Qed.

Lemma firstn_sorted n l : Sorted key_le l -> Sorted key_le (firstn n l).
Proof.
  revert l; induction n as [|n IH]; intros l Hs; [constructor|].
  destruct l as [|x l]; [constructor|]. simpl.
  inversion Hs as [|? ? Hs' Hh]; subst.
  constructor; [auto|].
  destruct n, l; simpl; try constructor. inversion Hh; auto.
Qed.

Lemma key_le_trans : Relations_1.Transitive key_le.
Proof. intros x y z; unfold key_le; apply Qle_trans. Qed.

(** In a list sorted by key, an element is among the first [n] as soon
    as at most [n] entries have a key no larger than its own. *)
Lemma In_firstn_sorted n l x :
  Sorted key_le l -> In x l ->
  (length (filter (fun y => Qle_bool (key y) (key x)) l) <= n)%nat ->
  In x (firstn n l).
Proof.
  intros Hs. apply Sorted_StronglySorted in Hs; [|exact key_le_trans].
  revert n; induction Hs as [|y l Hs IH Hall]; intros n Hin Hc; [destruct Hin|].
  destruct n as [|n].
  - simpl in Hc. destruct Hin as [->|Hin].
    + rewrite (proj2 (Qle_bool_iff _ _) (Qle_refl _)) in Hc. simpl in Hc. lia.
    + rewrite Forall_forall in Hall. specialize (Hall x Hin).
      rewrite (proj2 (Qle_bool_iff _ _) Hall) in Hc. simpl in Hc. lia.
  - simpl. destruct Hin as [->|Hin]; [left; reflexivity|right].
    apply IH; [exact Hin|].
    rewrite Forall_forall in Hall. specialize (Hall x Hin).
    simpl in Hc. rewrite (proj2 (Qle_bool_iff _ _) Hall) in Hc. simpl in Hc. lia.
Qed.
End SortLemmas.

Lemma in_firstn {A} n (l : list A) x : In x (firstn n l) -> In x l.
Proof.
  intros H. rewrite <- (firstn_skipn n l). apply in_or_app. left; exact H.
Qed.

Lemma sql_limit_length {A} n (l l' : list A) :
  sql_limit n l = Ok l' -> l' = firstn (Z.to_nat n) l /\ (0 <= n)%Z.
Proof.
  unfold sql_limit. destruct (Z.ltb_spec n 0) as [Hn|Hn]; intros H; [discriminate|].
  injection H as <-. split; [reflexivity | lia].
Qed.

(** ** The result dicts of the two searches, and what the handlers answer *)

Lemma find_nearby_properties_dict_ok parse_int parse_float st_distance a d p :
  find_nearby_properties_dict parse_int parse_float st_distance a d = Ok p ->
  exists lat lng radius limit0 props,
    float_arg_or parse_float (n_lat a) (377749 # 10000) = Ok lat /\
    float_arg_or parse_float (n_lng a) (-1224194 # 10000) = Ok lng /\
    int_arg_or parse_int (n_radius a) 1000 = Ok radius /\
    int_arg_or parse_int (n_limit a) 10 = Ok limit0 /\
    connect d = Ok tt /\
    exec_nearby st_distance d lng lat radius (Z.min limit0 100) = Ok props /\
    p = NearbyPayload (lat, lng) radius (length props) props.
Proof.
  intros R. unfold find_nearby_properties_dict in R.
  do 6 inv_ok R. destruct v3. injection R as <-.
  exists v, v0, v1, v2, v4. repeat split; assumption.
Qed.

Lemma search_properties_dict_ok parse_int parse_float a d p :
  search_properties_dict parse_int parse_float a d = Ok p ->
  exists limit0 conditions params rows,
    int_arg_or parse_int (q_limit a) 20 = Ok limit0 /\
    search_builder (arg_as_int parse_int (q_price_min a)) (arg_as_int parse_int (q_price_max a))
      (arg_as_int parse_int (q_bedrooms a)) (arg_as_float parse_float (q_bathrooms a))
      (q_property_type a) (Z.min limit0 100) = (conditions, params) /\
    connect d = Ok tt /\
    exec_search d conditions params = Ok rows /\
    p = SearchPayload
          (Filters (arg_as_int parse_int (q_price_min a), arg_as_int parse_int (q_price_max a))
             (arg_as_int parse_int (q_bedrooms a)) (arg_as_float parse_float (q_bathrooms a))
             (q_property_type a))
          (length rows) rows.
Proof.
  intros R. unfold search_properties_dict in R.
  inv_ok R.
  match type of R with context [search_builder ?a1 ?a2 ?a3 ?a4 ?a5 ?a6] =>
    destruct (search_builder a1 a2 a3 a4 a5 a6) as [conditions params] eqn:B end.
  do 2 inv_ok R. destruct v0. injection R as <-.
  exists v, conditions, params, v1. repeat split; assumption.
Qed.

(** [jsonify(payload, default=serialize_result)] raises [TypeError]. *)
Lemma jsonify_default_raises {A} (p : A) :
  jsonify p ["default"] = Raise (TypeError "app.json.response() takes either args or kwargs, not both").
Proof. reflexivity. Qed.

(** The nearby handler answers 400 when building its dict raised
    [ValueError] and 500 otherwise: when the dict is built, [jsonify]
    raises [TypeError]. *)
Lemma find_nearby_properties_answer parse_int parse_float st_distance a d :
  find_nearby_properties parse_int parse_float st_distance a d =
  match find_nearby_properties_dict parse_int parse_float st_distance a d with
  | Raise (ValueError _) => Response 400 (ErrorBody "Invalid coordinates or radius")
  | _ => Response 500 (ErrorBody "Search failed")
  end.
Proof.
  unfold find_nearby_properties.
  destruct (find_nearby_properties_dict parse_int parse_float st_distance a d) as [p|[]];
    reflexivity.
Qed.

Lemma search_properties_500 parse_int parse_float a d :
  search_properties parse_int parse_float a d = Response 500 (ErrorBody "Search failed").
Proof.
  unfold search_properties.
  destruct (search_properties_dict parse_int parse_float a d) as [p|e]; reflexivity.
Qed.

Lemma find_nearby_properties_not_200 parse_int parse_float st_distance a d :
  status (find_nearby_properties parse_int parse_float st_distance a d) <> 200%Z.
Proof.
  rewrite find_nearby_properties_answer.
  destruct (find_nearby_properties_dict parse_int parse_float st_distance a d) as [p|[]];
    cbn; discriminate.
Qed.

Lemma no_pct_app (a b : string) : no_pct (a ++ b) = no_pct a && no_pct b.
Proof. induction a as [|c a IH]; simpl; [reflexivity | rewrite IH; apply andb_assoc]. Qed.

(** A template [prefix ++ "%s"] consumes exactly one value. *)
Lemma eval_condition_consumes pf v ps p ps' :
  eval_condition (pf ++ "%s") (v :: ps) = Ok (p, ps') -> ps' = ps.
Proof.
  unfold eval_condition.
  destruct (String.eqb_spec (pf ++ "%s") base_condition) as [E|_].
  - exfalso. assert (Hn := f_equal no_pct E). rewrite no_pct_app in Hn.
    rewrite andb_false_r in Hn. discriminate.
  - repeat match goal with
           | |- context [if ?b then _ else _] => destruct b
           | |- context [match ?o with Some _ => _ | None => _ end] => destruct o
           | |- context [match ?p with PInt _ => _ | PFloat _ => _ | PStr _ => _ end] => destruct p
           end;
    try discriminate; intros H; injection H as _ <-; reflexivity.
Qed.

Lemma eval_condition_base ps :
  exists pred, eval_condition base_condition ps = Ok (pred, ps).
Proof. unfold eval_condition. rewrite String.eqb_refl. eexists; reflexivity. Qed.

Lemma eval_where_templates_consume pairs rest pred rest' :
  eval_where (map (fun pv => fst pv ++ "%s") pairs) (app (map snd pairs) rest)
    = Ok (pred, rest') -> rest' = rest.
Proof.
  revert pred rest'; induction pairs as [|[pf w] pairs IH]; intros pred rest' H;
    simpl in H.
  - injection H as _ <-. reflexivity.
  - inv_ok H. destruct v as [p1 ps1].
    apply eval_condition_consumes in Hv; subst ps1.
    inv_ok H. destruct v as [q qs]. injection H as _ <-.
    exact (IH _ _ Hv).
Qed.

Lemma eval_where_consumes pairs rest pred rest' :
  eval_where (base_condition :: map (fun pv => fst pv ++ "%s") pairs)
             (app (map snd pairs) rest) = Ok (pred, rest') -> rest' = rest.
Proof.
  intros H. cbn [eval_where] in H. inv_ok H.
  destruct (eval_condition_base (app (map snd pairs) rest)) as [p0 E].
  rewrite E in Hv. injection Hv as <-.
  inv_ok H. destruct v as [q qs]. injection H as _ <-.
  exact (eval_where_templates_consume _ _ _ _ Hv).
Qed.

(** The filtered search returns at most its LIMIT parameter rows. *)
Lemma exec_search_builder_length pm pM bd bt pt limit d rows :
  exec_search d (fst (search_builder pm pM bd bt pt limit))
    (snd (search_builder pm pM bd bt pt limit)) = Ok rows ->
  (length rows <= Z.to_nat limit)%nat.
Proof.
  rewrite search_builder_pairs; cbn [fst snd].
  unfold exec_search. intros H. inv_ok H. inv_ok H. destruct v0 as [pred rest].
  apply eval_where_consumes in Hv0; subst rest.
  inv_ok H. injection H as <-.
  apply sql_limit_length in Hv0 as [-> _].
  rewrite length_map, length_firstn. lia.
Qed.

(** ** The nearby statement *)

Section NearbyLemmas.
Variable st_distance : point -> point -> Q.

Lemma nearby_candidate_some center radius r x :
  nearby_candidate st_distance center radius r = Ok (Some x) ->
  exists p, location r = Some p /\ srid p = srid center /\
    distance_meters x = st_distance p center /\
    (st_distance p center <= inject_Z radius)%Q /\
    nb_longitude x = px p /\ nb_latitude x = py p /\ nb_id x = id r.
Proof.
  unfold nearby_candidate. destruct (location r) as [p|]; [|discriminate].
  destruct (Z.eqb_spec (srid p) (srid center)) as [Hs|]; [|discriminate].
  destruct (Qle_bool (st_distance p center) (inject_Z radius)) eqn:E; [|discriminate].
  intros H; injection H as <-. apply Qle_bool_iff in E.
  exists p; repeat split; auto.
Qed.

Lemma nearby_scan_in center radius rs hits :
  nearby_scan st_distance center radius rs = Ok hits ->
  forall x, In x hits -> exists r, In r rs /\
    nearby_candidate st_distance center radius r = Ok (Some x).
Proof.
  revert hits; induction rs as [|r rs IH]; intros hits H x Hx; simpl in H.
  - injection H as <-. destruct Hx.
  - inv_ok H. inv_ok H. injection H as <-.
    destruct v as [y|].
    + destruct Hx as [->|Hx]; [exists r; split; [left |]; auto|].
      destruct (IH _ Hv0 x Hx) as [r' [? ?]].
      exists r'; split; [right |]; assumption.
    + destruct (IH _ Hv0 x Hx) as [r' [? ?]].
      exists r'; split; [right |]; assumption.
Qed.

Lemma exec_nearby_spec d lng lat radius limit props :
  exec_nearby st_distance d lng lat radius limit = Ok props ->
  Sorted (key_le distance_meters) props /\
  (length props <= Z.to_nat limit)%nat /\
  forall x, In x props -> exists r, In r (db_rows d) /\
    nearby_candidate st_distance (st_geom_from_point_text lng lat) radius r = Ok (Some x).
Proof.
  unfold exec_nearby. intros H. inv_ok H. inv_ok H.
  apply sql_limit_length in H as [-> _].
  split; [apply firstn_sorted, sort_by_sorted|]. split.
  - rewrite length_firstn. lia.
  - intros x Hx. apply in_firstn, In_sort_by in Hx.
    exact (nearby_scan_in _ _ _ _ Hv0 x Hx).
Qed.
End NearbyLemmas.

(** C2: every property of the list the nearby handler builds from its
    query comes from a stored row whose location is not null (a point
    with SRID 4326), has [distance_meters] equal to ST_Distance from that
    location to the search centre and at most the requested radius, and
    the list is non-decreasing in [distance_meters]; the handler then
    answers HTTP 500 ([jsonify] raises), so no response carries another
    list. *)
Theorem nearby_results_within_radius_sorted parse_int parse_float st_distance a d p :
  find_nearby_properties_dict parse_int parse_float st_distance a d = Ok p ->
  (let center := st_geom_from_point_text (snd (search_center p)) (fst (search_center p)) in
   Sorted (fun x y => (distance_meters x <= distance_meters y)%Q) (nb_properties p) /\
   Forall (fun x =>
     (distance_meters x <= inject_Z (radius_meters p))%Q /\
     exists r, In r (db_rows d) /\ id r = nb_id x /\
       location r = Some (Point (nb_longitude x) (nb_latitude x) 4326) /\
       distance_meters x = st_distance (Point (nb_longitude x) (nb_latitude x) 4326) center)
     (nb_properties p)) /\
  find_nearby_properties parse_int parse_float st_distance a d
  = Response 500 (ErrorBody "Search failed").
Proof.
  intros H. split.
  2:{ rewrite find_nearby_properties_answer, H. reflexivity. }
  intros center.
  apply find_nearby_properties_dict_ok in H
    as (lat & lng & radius & limit0 & props & _ & _ & _ & _ & _ & Hex & ->).
  subst center. cbn [nb_properties search_center radius_meters fst snd].
  apply exec_nearby_spec in Hex as (Hs & _ & Hin).
  split; [exact Hs|].
  apply Forall_forall. intros x Hx.
  destruct (Hin x Hx) as (r & Hr & Hc).
  apply nearby_candidate_some in Hc
    as ([qx qy qs] & Hloc & Hsrid & Hd & Hle & Hlon & Hlat & Hid).
  cbn [srid px py st_geom_from_point_text] in *. subst qs.
  rewrite Hd, Hlon, Hlat. split; [exact Hle|].
  exists r. repeat split; auto; rewrite Hloc; reflexivity.
Qed.

(** C4: in both searches the list the handler builds from its query never
    holds more rows than the effective limit [min(limit, 100)] (the
    requested limit, or 10 for the nearby search and 20 for the filtered
    search when absent), so never more than 100; no response of either
    handler is an HTTP 200 carrying rows. *)
Theorem search_results_within_limit parse_int parse_float st_distance :
  (forall a d p lim,
     effective_limit parse_int (n_limit a) 10 = Ok lim ->
     find_nearby_properties_dict parse_int parse_float st_distance a d = Ok p ->
     (lim <= 100)%Z /\ (length (nb_properties p) <= Z.to_nat lim)%nat /\
     (length (nb_properties p) <= 100)%nat) /\
  (forall a d p lim,
     effective_limit parse_int (q_limit a) 20 = Ok lim ->
     search_properties_dict parse_int parse_float a d = Ok p ->
     (lim <= 100)%Z /\ (length (properties p) <= Z.to_nat lim)%nat /\
     (length (properties p) <= 100)%nat) /\
  effective_limit parse_int None 10 = Ok 10%Z /\
  effective_limit parse_int None 20 = Ok 20%Z /\
  (forall a d, status (find_nearby_properties parse_int parse_float st_distance a d) <> 200%Z) /\
  (forall a d, status (search_properties parse_int parse_float a d) <> 200%Z).
Proof.
  split; [|split; [|split; [reflexivity | split; [reflexivity | split]]]].
  3:{ intros a d. apply find_nearby_properties_not_200. }
  3:{ intros a d. rewrite search_properties_500. discriminate. }
  all: intros a d p lim Hlim H.
  - apply find_nearby_properties_dict_ok in H
      as (lat & lng & radius & limit0 & props & _ & _ & _ & Hl & _ & Hex & ->).
    unfold effective_limit in Hlim. rewrite Hl in Hlim. injection Hlim as <-.
    apply exec_nearby_spec in Hex as (_ & Hlen & _). cbn [nb_properties].
    assert (Z.to_nat (Z.min limit0 100) <= 100)%nat by lia. lia.
  - apply search_properties_dict_ok in H
      as (limit0 & conditions & params & rows & Hl & B & _ & Hex & ->).
    unfold effective_limit in Hlim. rewrite Hl in Hlim. injection Hlim as <-.
    cbn [properties].
    assert (Hlen : (length rows <= Z.to_nat (Z.min limit0 100))%nat).
    { eapply exec_search_builder_length. rewrite B. exact Hex. }
    assert (Z.to_nat (Z.min limit0 100) <= 100)%nat by lia. lia.
Qed.

(** C10: in both searches the [total_found] of the dict the handler
    builds equals the number of its properties, which is at most the
    effective limit; neither handler ever answers HTTP 200. *)
Theorem total_found_is_returned_count parse_int parse_float st_distance :
  (forall a d p,
     find_nearby_properties_dict parse_int parse_float st_distance a d = Ok p ->
     nb_total_found p = length (nb_properties p) /\
     exists lim, effective_limit parse_int (n_limit a) 10 = Ok lim /\
       (nb_total_found p <= Z.to_nat lim)%nat) /\
  (forall a d p,
     search_properties_dict parse_int parse_float a d = Ok p ->
     total_found p = length (properties p) /\
     exists lim, effective_limit parse_int (q_limit a) 20 = Ok lim /\
       (total_found p <= Z.to_nat lim)%nat) /\
  (forall a d, status (find_nearby_properties parse_int parse_float st_distance a d) <> 200%Z) /\
  (forall a d, status (search_properties parse_int parse_float a d) <> 200%Z).
Proof.
  split; [|split; [|split]].
  3:{ intros a d. apply find_nearby_properties_not_200. }
  3:{ intros a d. rewrite search_properties_500. discriminate. }
  all: intros a d p H.
  - apply find_nearby_properties_dict_ok in H
      as (lat & lng & radius & limit0 & props & _ & _ & _ & Hl & _ & Hex & ->).
    cbn [nb_total_found nb_properties]. split; [reflexivity|].
    exists (Z.min limit0 100). unfold effective_limit. rewrite Hl. split; [reflexivity|].
    apply exec_nearby_spec in Hex as (_ & Hlen & _). exact Hlen.
  - apply search_properties_dict_ok in H
      as (limit0 & conditions & params & rows & Hl & B & _ & Hex & ->).
    cbn [total_found properties]. split; [reflexivity|].
    exists (Z.min limit0 100). unfold effective_limit. rewrite Hl. split; [reflexivity|].
    eapply exec_search_builder_length. rewrite B. exact Hex.
Qed.

(** ** Failures of the nearby search *)

Lemma float_arg_or_cases parse_float o dflt :
  (exists q, float_arg_or parse_float o dflt = Ok q) \/
  (exists m, float_arg_or parse_float o dflt = Raise (ValueError m)).
Proof.
  unfold float_arg_or. destruct o as [s|]; [destruct (parse_float s)|]; eauto.
Qed.

Lemma int_arg_or_cases parse_int o dflt :
  (exists z, int_arg_or parse_int o dflt = Ok z) \/
  (exists m, int_arg_or parse_int o dflt = Raise (ValueError m)).
Proof.
  unfold int_arg_or. destruct o as [s|]; [destruct (parse_int s)|]; eauto.
Qed.

Lemma float_arg_or_bad parse_float o dflt s :
  o = Some s -> parse_float s = None ->
  float_arg_or parse_float o dflt = Raise (ValueError "could not convert string to float").
Proof. intros -> H. unfold float_arg_or. rewrite H. reflexivity. Qed.

Lemma int_arg_or_bad parse_int o dflt s :
  o = Some s -> parse_int s = None ->
  int_arg_or parse_int o dflt = Raise (ValueError "invalid literal for int()").
Proof. intros -> H. unfold int_arg_or. rewrite H. reflexivity. Qed.

(** The store raises database errors only. *)
Lemma exec_nearby_db_error st_distance d lng lat radius limit e :
  exec_nearby st_distance d lng lat radius limit = Raise e -> exists m, e = DbError m.
Proof.
  unfold exec_nearby, table_exists.
  destruct (db_table d); simpl; [|intros H; injection H as <-; eauto].
  generalize (db_rows d) as rs.
  assert (Hscan : forall rs, (exists hits, nearby_scan st_distance
              (st_geom_from_point_text lng lat) radius rs = Ok hits) \/
            exists m, nearby_scan st_distance (st_geom_from_point_text lng lat) radius rs
                      = Raise (DbError m)).
  { induction rs as [|r rs IH]; simpl; [left; eauto|].
    unfold nearby_candidate.
    destruct (location r) as [p|]; simpl;
      repeat match goal with |- context [if ?b then _ else _] => destruct b end;
      simpl; try (right; eauto; fail);
      (destruct IH as [[hits ->] | [m ->]]; simpl; [left | right]; eauto). }
  intros rs. destruct (Hscan rs) as [[hits ->] | [m ->]]; simpl.
  - unfold sql_limit. destruct (Z.ltb limit 0); intros H; [injection H as <-; eauto | discriminate].
  - intros H; injection H as <-; eauto.
Qed.

(** C8 (code bug): a non-numeric [lat], [lng] or [radius] gives HTTP 400
    with the validation message; once the arguments parse, any failure of
    the store (connection or query) gives HTTP 500 with the fixed message
    "Search failed", whatever its cause; but when no property lies within
    the radius the handler builds the dict with [total_found = 0] and an
    empty list, and [jsonify(..., default=serialize_result)] raises
    [TypeError], so the answer is HTTP 500 "Search failed", not 200. *)
Theorem nearby_error_handling parse_int parse_float st_distance a d :
  (((exists s, n_lat a = Some s /\ parse_float s = None) \/
    (exists s, n_lng a = Some s /\ parse_float s = None) \/
    (exists s, n_radius a = Some s /\ parse_int s = None)) ->
   find_nearby_properties parse_int parse_float st_distance a d
   = Response 400 (ErrorBody "Invalid coordinates or radius")) /\
  (forall lat lng radius limit0 e,
     float_arg_or parse_float (n_lat a) (377749 # 10000) = Ok lat ->
     float_arg_or parse_float (n_lng a) (-1224194 # 10000) = Ok lng ->
     int_arg_or parse_int (n_radius a) 1000 = Ok radius ->
     int_arg_or parse_int (n_limit a) 10 = Ok limit0 ->
     (connect d = Raise e \/
      exec_nearby st_distance d lng lat radius (Z.min limit0 100) = Raise e) ->
     find_nearby_properties parse_int parse_float st_distance a d
     = Response 500 (ErrorBody "Search failed")) /\
  (forall lat lng radius limit0,
     float_arg_or parse_float (n_lat a) (377749 # 10000) = Ok lat ->
     float_arg_or parse_float (n_lng a) (-1224194 # 10000) = Ok lng ->
     int_arg_or parse_int (n_radius a) 1000 = Ok radius ->
     int_arg_or parse_int (n_limit a) 10 = Ok limit0 ->
     connect d = Ok tt ->
     exec_nearby st_distance d lng lat radius (Z.min limit0 100) = Ok [] ->
     find_nearby_properties_dict parse_int parse_float st_distance a d
     = Ok (NearbyPayload (lat, lng) radius 0 []) /\
     find_nearby_properties parse_int parse_float st_distance a d
     = Response 500 (ErrorBody "Search failed")).
Proof.
  rewrite find_nearby_properties_answer. unfold find_nearby_properties_dict.
  split; [|split].
  - intros [(s & Hs & Hp) | [(s & Hs & Hp) | (s & Hs & Hp)]].
    + rewrite (float_arg_or_bad _ _ _ _ Hs Hp). reflexivity.
    + destruct (float_arg_or_cases parse_float (n_lat a) (377749 # 10000))
        as [[q Hq] | [m Hm]]; rewrite ?Hq, ?Hm; [|reflexivity]. simpl.
      rewrite (float_arg_or_bad _ _ _ _ Hs Hp). reflexivity.
    + destruct (float_arg_or_cases parse_float (n_lat a) (377749 # 10000))
        as [[q Hq] | [m Hm]]; rewrite ?Hq, ?Hm; [|reflexivity]. simpl.
      destruct (float_arg_or_cases parse_float (n_lng a) (-1224194 # 10000))
        as [[q' Hq'] | [m Hm]]; rewrite ?Hq', ?Hm; [|reflexivity]. simpl.
      rewrite (int_arg_or_bad _ _ _ _ Hs Hp). reflexivity.
  - intros lat lng radius limit0 e H1 H2 H3 H4 He.
    rewrite H1; simpl; rewrite H2; simpl; rewrite H3; simpl; rewrite H4; simpl.
    destruct He as [He | He].
    + rewrite He. unfold connect in He. destruct (db_up d); [discriminate|].
      injection He as <-. reflexivity.
    + destruct (connect d) as [[]|e'] eqn:Ec; simpl.
      * rewrite He. destruct (exec_nearby_db_error _ _ _ _ _ _ _ He) as [m ->].
        reflexivity.
      * unfold connect in Ec. destruct (db_up d); [discriminate|].
        injection Ec as <-. reflexivity.
  - intros lat lng radius limit0 H1 H2 H3 H4 Hc He.
    rewrite H1; simpl; rewrite H2; simpl; rewrite H3; simpl; rewrite H4; simpl.
    rewrite Hc; simpl. rewrite He. split; reflexivity.
Qed.

(** C9: the health check runs its three probes in sequence; the first
    failure aborts it with HTTP 500, status unhealthy, that failure's
    message and the timestamp; when all three succeed the response is
    HTTP 200, status healthy, with the database, postgis and data_summary
    sections built from the three probe results. *)
Theorem health_check_outcomes d now :
  (forall e,
     (probe_connectivity d = Raise e \/
      (exists info, probe_connectivity d = Ok info /\ probe_postgis d = Raise e) \/
      (exists info v, probe_connectivity d = Ok info /\ probe_postgis d = Ok v /\
                      probe_counts d = Raise e)) ->
     health_check d now = Response 500 (Success (Unhealthy (exn_message e) now))) /\
  (forall info v c,
     probe_connectivity d = Ok info -> probe_postgis d = Ok v -> probe_counts d = Ok c ->
     health_check d now =
     Response 200 (Success (Healthy now info (HealthPostgis v true)
                              (HealthSummary (fst c) (snd c))))).
Proof.
  unfold health_check. split.
  - intros e [H1 | [(info & H1 & H2) | (info & v & H1 & H2 & H3)]].
    + rewrite H1. reflexivity.
    + rewrite H1; simpl; rewrite H2. reflexivity.
    + rewrite H1; simpl; rewrite H2; simpl; rewrite H3. reflexivity.
  - intros info v c H1 H2 H3. rewrite H1; simpl; rewrite H2; simpl; rewrite H3.
    reflexivity.
Qed.

(** C7: [serialize_result] turns a Decimal into [float(x)] and a datetime
    into its [isoformat()] string; on any other value it does not return
    something else: it raises TypeError naming the value's type. *)
Theorem serialize_result_cases (float decimal datetime : Type)
    (float_of_decimal : decimal -> float) (isoformat : datetime -> string) :
  let ser := serialize_result float decimal datetime float_of_decimal isoformat in
  (forall x, ser (PyDecimal float decimal datetime x)
             = Ok (PyFloat float decimal datetime (float_of_decimal x))) /\
  (forall t, ser (PyDatetime float decimal datetime t)
             = Ok (PyStr float decimal datetime (isoformat t))) /\
  (forall v,
     (forall x, v <> PyDecimal float decimal datetime x) ->
     (forall t, v <> PyDatetime float decimal datetime t) ->
     (ser v = Ok v \/ exists m, ser v = Raise (TypeError m)) /\
     ser v = Raise (TypeError ("Object of type <class '" ++
                               type_name float decimal datetime v ++
                               "'> is not JSON serializable"))).
Proof.
  intros ser. split; [reflexivity | split; [reflexivity|]].
  intros v Hd Ht.
  assert (H : ser v = Raise (TypeError ("Object of type <class '" ++
                         type_name float decimal datetime v ++
                         "'> is not JSON serializable"))).
  { destruct v; try reflexivity; [exfalso; eapply Hd | exfalso; eapply Ht]; reflexivity. }
  split; [right; eexists; exact H | exact H].
Qed.

(** ** The insert handler *)

Lemma py_all_in_obj fs kvs :
  py_all_in fs (JObj kvs) =
  Ok (forallb (fun f => match lookup_key f kvs with Some _ => true | None => false end) fs).
Proof.
  induction fs as [|f fs IH]; simpl; [reflexivity|].
  destruct (lookup_key f kvs); simpl; [exact IH | reflexivity].
Qed.

Lemma py_get_obj kvs k dflt :
  py_get (JObj kvs) k dflt = Ok (match lookup_key k kvs with Some v => v | None => dflt end).
Proof. unfold py_get. destruct (lookup_key k kvs); reflexivity. Qed.

Lemma py_getitem_obj kvs k v :
  lookup_key k kvs = Some v -> py_getitem (JObj kvs) k = Ok v.
Proof. unfold py_getitem. intros ->. reflexivity. Qed.

Lemma db_insert_appends d args nid d' :
  db_insert d args = Ok (nid, d') ->
  nid = db_next_id d /\ db_next_id d' = (db_next_id d + 1)%Z /\
  exists row, db_rows d' = app (db_rows d) [row] /\ id row = nid /\
    as_text_opt (ia_property_type args) = Ok (property_type row) /\
    location row <> None.
Proof.
  unfold db_insert. intros H. do 9 inv_ok H. injection H as <- <-.
  split; [reflexivity|]. split; [reflexivity|].
  eexists; split; [reflexivity|]. split; [reflexivity|]. split; [exact Hv5 | discriminate].
Qed.


Lemma add_property_missing kvs d :
  (exists f, In f required_fields /\ lookup_key f kvs = None) ->
  add_property (Some (JObj kvs)) d = (Response 400 (ErrorBody "Missing required fields"), d).
Proof.
  intros (f & Hf & Hnone). unfold add_property. cbn [rbind].
  rewrite py_all_in_obj.
  assert (Hb : forallb (fun f => match lookup_key f kvs with Some _ => true | None => false end)
                 required_fields = false).
  { apply not_true_iff_false. intros Ht. rewrite forallb_forall in Ht.
    specialize (Ht f Hf). rewrite Hnone in Ht. discriminate. }
  rewrite Hb. reflexivity.
Qed.

Lemma add_property_present kvs d addr pr la lo :
  lookup_key "address" kvs = Some addr -> lookup_key "price" kvs = Some pr ->
  lookup_key "latitude" kvs = Some la -> lookup_key "longitude" kvs = Some lo ->
  add_property (Some (JObj kvs)) d =
  match connect d with
  | Raise _ => (Response 500 (ErrorBody "Failed to add property"), d)
  | Ok _ =>
      match db_insert d (insert_args_of kvs addr pr la lo) with
      | Ok (nid, d') =>
          (Response 201 (Success (InsertPayload true nid "Property added successfully")), d')
      | Raise _ => (Response 500 (ErrorBody "Failed to add property"), d)
      end
  end.
Proof.
  intros Ha Hp Hla Hlo. unfold add_property. cbn [rbind].
  rewrite py_all_in_obj. unfold required_fields. cbn [forallb].
  rewrite Ha, Hp, Hla, Hlo. cbn [andb negb rbind].
  destruct (connect d) as [[]|e]; cbn [rbind]; [|reflexivity].
  rewrite (py_getitem_obj _ _ _ Ha), (py_getitem_obj _ _ _ Hp). cbn [rbind].
  rewrite !py_get_obj. cbn [rbind].
  rewrite (py_getitem_obj _ _ _ Hlo), (py_getitem_obj _ _ _ Hla). cbn [rbind].
  unfold insert_args_of.
  destruct (db_insert _ _) as [[nid d']|e]; reflexivity.
Qed.

(** C3 (as corrected): for a JSON object body, a missing required key
    (address, price, latitude, longitude) gives HTTP 400 and leaves the
    database unchanged; with all four present the INSERT receives the
    body's values, [property_type] defaulting to "Unknown" and the other
    optional columns to null when absent, and the response is HTTP 201
    with the newly assigned id (the next serial value, the row appended)
    when the store accepts it, HTTP 500 with the database unchanged when
    the store is unreachable or rejects it. *)
Theorem add_property_outcomes kvs d :
  ((exists f, In f required_fields /\ lookup_key f kvs = None) ->
   add_property (Some (JObj kvs)) d = (Response 400 (ErrorBody "Missing required fields"), d)) /\
  (forall addr pr la lo,
     lookup_key "address" kvs = Some addr -> lookup_key "price" kvs = Some pr ->
     lookup_key "latitude" kvs = Some la -> lookup_key "longitude" kvs = Some lo ->
     add_property (Some (JObj kvs)) d =
     match connect d with
     | Raise _ => (Response 500 (ErrorBody "Failed to add property"), d)
     | Ok _ =>
         match db_insert d (insert_args_of kvs addr pr la lo) with
         | Ok (nid, d') =>
             (Response 201 (Success (InsertPayload true nid "Property added successfully")), d')
         | Raise _ => (Response 500 (ErrorBody "Failed to add property"), d)
         end
     end) /\
  (forall args nid d',
     db_insert d args = Ok (nid, d') ->
     nid = db_next_id d /\
     exists row, db_rows d' = app (db_rows d) [row] /\ id row = nid /\
       as_text_opt (ia_property_type args) = Ok (property_type row)).
Proof.
  split; [exact (add_property_missing kvs d)|split].
  - intros addr pr la lo. exact (add_property_present kvs d addr pr la lo).
  - intros args nid d' H. apply db_insert_appends in H as (Hn & _ & row & Hr & Hid & Ht & _).
    split; [exact Hn|]. exists row. auto.
Qed.

(** ** Insert, then search at the same point *)

Lemma filter_length_insert_by {A} (key : A -> Q) (f : A -> bool) x l :
  length (filter f (insert_by key x l)) = (Nat.b2n (f x) + length (filter f l))%nat.
Proof.
  induction l as [|y l IH]; simpl.
  - destruct (f x); reflexivity.
  - destruct (Qle_bool (key x) (key y)); simpl.
    + destruct (f x), (f y); reflexivity.
    + destruct (f y); simpl; rewrite IH; destruct (f x); simpl; lia.
Qed.

Lemma filter_length_sort_by {A} (key : A -> Q) (f : A -> bool) l :
  length (filter f (sort_by key l)) = length (filter f l).
Proof.
  induction l as [|x l IH]; simpl; [reflexivity|].
  rewrite filter_length_insert_by, IH. destruct (f x); reflexivity.
Qed.

Lemma Qle_bool_compat_r a b b' : (b == b')%Q -> Qle_bool a b = Qle_bool a b'.
Proof.
  intros Hb. destruct (Qle_bool a b) eqn:E1, (Qle_bool a b') eqn:E2; auto.
  - apply Qle_bool_iff in E1. rewrite Hb in E1. apply Qle_bool_iff in E1. congruence.
  - apply Qle_bool_iff in E2. rewrite <- Hb in E2. apply Qle_bool_iff in E2. congruence.
Qed.

Lemma nearby_scan_app st_distance center radius rs1 rs2 :
  nearby_scan st_distance center radius (app rs1 rs2) =
  (h1 <- nearby_scan st_distance center radius rs1 ;;
   h2 <- nearby_scan st_distance center radius rs2 ;;
   Ok (app h1 h2)).
Proof.
  induction rs1 as [|r rs1 IH]; simpl.
  - destruct (nearby_scan st_distance center radius rs2); reflexivity.
  - destruct (nearby_candidate st_distance center radius r) as [o|e]; simpl; [|reflexivity].
    rewrite IH.
    destruct (nearby_scan st_distance center radius rs1) as [h1|e]; simpl; [|reflexivity].
    destruct (nearby_scan st_distance center radius rs2) as [h2|e]; simpl; [|reflexivity].
    destruct o; reflexivity.
Qed.

Lemma nearby_scan_ok st_distance center radius rs :
  (forall r p, In r rs -> location r = Some p -> srid p = srid center) ->
  exists hits, nearby_scan st_distance center radius rs = Ok hits.
Proof.
  induction rs as [|r rs IH]; intros Hs; simpl; [eauto|].
  destruct IH as [hits Hh]; [intros r' p Hr' Hp; apply (Hs r' p); [right|]; assumption|].
  unfold nearby_candidate.
  destruct (location r) as [p|] eqn:Hl; simpl.
  - rewrite (proj2 (Z.eqb_eq _ _) (Hs r p (or_introl eq_refl) Hl)).
    destruct (Qle_bool _ _); simpl; rewrite Hh; simpl; eauto.
  - rewrite Hh; simpl; eauto.
Qed.

Lemma nearby_scan_count st_distance center radius c rs hits :
  nearby_scan st_distance center radius rs = Ok hits ->
  (length (filter (fun h => Qle_bool (distance_meters h) c) hits) <=
   length (filter (fun r => match location r with
                            | Some q => Qle_bool (st_distance q center) c
                            | None => false end) rs))%nat.
Proof.
  revert hits; induction rs as [|r rs IH]; intros hits H; simpl in H.
  - injection H as <-. simpl. lia.
  - inv_ok H. inv_ok H. injection H as <-. specialize (IH _ Hv0).
    destruct v as [x|].
    + destruct (nearby_candidate_some _ _ _ _ _ Hv) as (p & Hl & _ & Hd & _).
      simpl. rewrite Hd, Hl. destruct (Qle_bool _ c); simpl; lia.
    + simpl. destruct (match location r with Some q => _ | None => false end); simpl; lia.
Qed.

Lemma db_insert_row d args nid d' x y :
  db_insert d args = Ok (nid, d') -> ia_longitude args = JNum x -> ia_latitude args = JNum y ->
  db_table d = true /\ exists row, d' = db_append d row /\ id row = nid /\
    location row = Some (st_geom_from_point_text x y).
Proof.
  unfold db_insert. intros H Hx Hy. do 9 inv_ok H. injection H as <- <-.
  rewrite Hx in Hv6; injection Hv6 as <-. rewrite Hy in Hv7; injection Hv7 as <-.
  split; [unfold table_exists in Hv; destruct (db_table d); [reflexivity | discriminate]|].
  eexists; split; [reflexivity | split; reflexivity].
Qed.

(** C6 (as corrected): the INSERT stores the point built from the body's
    longitude (first axis) and latitude (second axis) with SRID 4326, and a
    nearby search at that latitude and longitude, with a radius of at least
    zero, puts the new listing in the list of its result dict as long as
    [ST_Distance] of a point to itself is zero, every stored location has
    SRID 4326, and the effective limit exceeds the number of listings
    stored before it at distance zero from the point. *)
Theorem insert_then_nearby_finds_it parse_int parse_float st_distance
    kvs d addr pr lng lat nid d' a slat slng radius lim :
  (forall p, st_distance p p == 0)%Q ->
  (forall r p, In r (db_rows d) -> location r = Some p -> srid p = 4326%Z) ->
  lookup_key "address" kvs = Some addr -> lookup_key "price" kvs = Some pr ->
  lookup_key "latitude" kvs = Some (JNum lat) -> lookup_key "longitude" kvs = Some (JNum lng) ->
  add_property (Some (JObj kvs)) d =
    (Response 201 (Success (InsertPayload true nid "Property added successfully")), d') ->
  n_lat a = Some slat -> parse_float slat = Some lat ->
  n_lng a = Some slng -> parse_float slng = Some lng ->
  int_arg_or parse_int (n_radius a) 1000 = Ok radius -> (0 <= radius)%Z ->
  effective_limit parse_int (n_limit a) 10 = Ok lim ->
  (length (filter (fun r => match location r with
                            | Some q => Qle_bool (st_distance q (st_geom_from_point_text lng lat)) 0
                            | None => false end) (db_rows d)) < Z.to_nat lim)%nat ->
  (exists row, In row (db_rows d') /\ id row = nid /\ location row = Some (Point lng lat 4326)) /\
  exists p, find_nearby_properties_dict parse_int parse_float st_distance a d' = Ok p /\
    exists x, In x (nb_properties p) /\ nb_id x = nid /\ nb_longitude x = lng /\ nb_latitude x = lat.
Proof.
  intros Hself Hsrid Ha Hp Hla Hlo Hadd Hslat Hplat Hslng Hplng Hr Hr0 Hlim Hcount.
  rewrite (add_property_present kvs d addr pr (JNum lat) (JNum lng) Ha Hp Hla Hlo) in Hadd.
  destruct (connect d) as [[]|e] eqn:Hc; [|discriminate].
  destruct (db_insert d (insert_args_of kvs addr pr (JNum lat) (JNum lng)))
    as [[nid' d'']|e] eqn:Hins; [|discriminate].
  injection Hadd as E1 E2. subst nid' d''.
  destruct (db_insert_row _ _ _ _ lng lat Hins eq_refl eq_refl) as (Htab & row & -> & Hid & Hloc).
  assert (Hup : db_up d = true)
    by (unfold connect in Hc; destruct (db_up d); [reflexivity | discriminate]).
  split.
  { exists row. split; [cbn [db_rows db_append]; apply in_or_app; right; left; reflexivity|].
    split; [exact Hid | exact Hloc]. }
  assert (Hin_rad : Qle_bool (st_distance (st_geom_from_point_text lng lat)
                                (st_geom_from_point_text lng lat)) (inject_Z radius) = true).
  { apply Qle_bool_iff. rewrite Hself. unfold Qle; simpl; lia. }
  remember (NearbyRow (id row) (address row) (price row) (bedrooms row) (bathrooms row)
              (square_feet row) (property_type row) (listing_status row) lng lat
              (st_distance (st_geom_from_point_text lng lat) (st_geom_from_point_text lng lat))
              (created_at row)) as xnew eqn:Hx.
  assert (Hcand : nearby_candidate st_distance (st_geom_from_point_text lng lat) radius row
                  = Ok (Some xnew)).
  { unfold nearby_candidate. rewrite Hloc. rewrite Z.eqb_refl. rewrite Hin_rad. subst xnew. reflexivity. }
  destruct (nearby_scan_ok st_distance (st_geom_from_point_text lng lat) radius (db_rows d))
    as [hits Hh].
  { intros r p Hr' Hp'. rewrite (Hsrid r p Hr' Hp'). reflexivity. }
  assert (Hscan : nearby_scan st_distance (st_geom_from_point_text lng lat) radius
                    (app (db_rows d) [row]) = Ok (app hits [xnew])).
  { rewrite nearby_scan_app, Hh. cbn [rbind nearby_scan]. rewrite Hcand. reflexivity. }
  unfold effective_limit in Hlim.
  destruct (int_arg_or parse_int (n_limit a) 10) as [limit0|e] eqn:Hl0;
    cbn [rbind] in Hlim; [|discriminate].
  injection Hlim as Hlim.
  assert (E1 : float_arg_or parse_float (n_lat a) (377749 # 10000) = Ok lat)
    by (unfold float_arg_or; rewrite Hslat, Hplat; reflexivity).
  assert (E2 : float_arg_or parse_float (n_lng a) (-1224194 # 10000) = Ok lng)
    by (unfold float_arg_or; rewrite Hslng, Hplng; reflexivity).
  unfold find_nearby_properties_dict. rewrite E1, E2, Hr, Hl0. cbn [rbind].
  rewrite Hlim.
  unfold connect at 1. cbn [db_up db_append]. rewrite Hup. cbn [rbind].
  unfold exec_nearby, table_exists. cbn [db_table db_rows db_append]. rewrite Htab. cbn [rbind].
  rewrite Hscan. cbn [rbind].
  unfold sql_limit. rewrite (proj2 (Z.ltb_ge lim 0)) by lia. cbn [rbind].
  eexists; split; [reflexivity|]. cbn [nb_properties].
  exists xnew. split; [|subst xnew; cbn; split; [exact Hid | split; reflexivity]].
  apply (In_firstn_sorted distance_meters); [apply sort_by_sorted | |].
  - apply In_sort_by, in_or_app. right; left; reflexivity.
  - rewrite filter_length_sort_by, filter_app, length_app. cbn [filter].
    rewrite (proj2 (Qle_bool_iff _ _) (Qle_refl _)). cbn [length].
    pose proof (nearby_scan_count st_distance (st_geom_from_point_text lng lat) radius
                  (distance_meters xnew) (db_rows d) hits Hh) as Hle.
    assert (Hf : filter (fun r => match location r with
                                  | Some q => Qle_bool (st_distance q (st_geom_from_point_text lng lat))
                                                (distance_meters xnew)
                                  | None => false end) (db_rows d) =
                 filter (fun r => match location r with
                                  | Some q => Qle_bool (st_distance q (st_geom_from_point_text lng lat)) 0
                                  | None => false end) (db_rows d)).
    { apply filter_ext. intros r. destruct (location r) as [q|]; [|reflexivity].
      apply Qle_bool_compat_r. subst xnew. cbn. apply Hself. }
    rewrite Hf in Hle. lia.
Qed.

(** ** Runs of the handlers on sample requests *)

Lemma manhattan_self p : (manhattan p p == 0)%Q.
Proof.
  unfold manhattan, qabs.
  destruct (Qle_bool 0 (px p - px p)), (Qle_bool 0 (py p - py p)); ring.
Qed.

(** Close [exists p, request = Response _ (Success p) /\ ...] with the
    payload the request computes to. *)
Ltac exists_response :=
  match goal with
  | |- exists p, ?lhs = Response _ (Success p) /\ _ =>
      let v := eval vm_compute in lhs in
      match v with Response _ (Success ?p) => exists p end
  end.

Ltac first_by_computation H :=
  match goal with
  | |- ?A /\ _ => assert (H : A) by (vm_compute; reflexivity); split; [exact H|]
  end.

(** Close [exists p, computation = Ok p /\ ...] with the value the
    computation returns. *)
Ltac exists_ok :=
  match goal with
  | |- exists p, ?lhs = Ok p /\ _ =>
      let v := eval vm_compute in lhs in
      match v with Ok ?p => exists p end
  end.

(** C1 (code bug): [price_max=0] is a supplied filter, but the handler
    tests it for truthiness and 0 is falsy, so no [price <= 0] predicate
    is added and the listing priced 500000 is among the rows of the
    handler's result dict; the handler then answers HTTP 500, its
    [jsonify] call raising [TypeError] (the defect of C8). *)
Theorem search_price_max_zero_adds_no_predicate :
  search_builder None (Some 0%Z) None None None 20 = ([base_condition], [PInt 20]) /\
  (exists p, search_properties_dict dec_int dec_float
               (SearchArgs None (Some "0") None None None None) one_listing = Ok p /\
     exists r, In r (properties p) /\ s_listing_status r = Some "active" /\ (0 < s_price r)%Q) /\
  search_properties dec_int dec_float (SearchArgs None (Some "0") None None None None) one_listing
  = Response 500 (ErrorBody "Search failed").
Proof.
  split; [reflexivity|]. split; [|vm_compute; reflexivity].
  exists_ok. split; [vm_compute; reflexivity|].
  eexists; split; [left; reflexivity|]. split; [reflexivity|]. vm_compute; reflexivity.
Qed.

(** The default nearby search on one listing at the default centre. *)
Lemma nearby_results_within_radius_sorted_witness :
  exists p, find_nearby_properties_dict dec_int dec_float manhattan no_nearby_args one_listing
            = Ok p /\
    nb_properties p <> [] /\
    ((let center := st_geom_from_point_text (snd (search_center p)) (fst (search_center p)) in
      Sorted (fun x y => (distance_meters x <= distance_meters y)%Q) (nb_properties p) /\
      Forall (fun x =>
        (distance_meters x <= inject_Z (radius_meters p))%Q /\
        exists r, In r (db_rows one_listing) /\ id r = nb_id x /\
          location r = Some (Point (nb_longitude x) (nb_latitude x) 4326) /\
          distance_meters x = manhattan (Point (nb_longitude x) (nb_latitude x) 4326) center)
        (nb_properties p)) /\
     find_nearby_properties dec_int dec_float manhattan no_nearby_args one_listing
     = Response 500 (ErrorBody "Search failed")).
Proof.
  exists_ok. first_by_computation H. split; [vm_compute; discriminate|].
  exact (nearby_results_within_radius_sorted dec_int dec_float manhattan _ _ _ H).
Defined.

(** [limit=500] on both searches: the effective limit is 100. *)
Lemma search_results_within_limit_witness :
  effective_limit dec_int (Some "500") 10 = Ok 100%Z /\
  (exists p, find_nearby_properties_dict dec_int dec_float manhattan
               (NearbyArgs None None None (Some "500")) one_listing = Ok p /\
     (length (nb_properties p) <= 100)%nat) /\
  effective_limit dec_int (Some "500") 20 = Ok 100%Z /\
  (exists p, search_properties_dict dec_int dec_float
               (SearchArgs None None None None None (Some "500")) one_listing = Ok p /\
     (length (properties p) <= 100)%nat).
Proof.
  first_by_computation E1.
  split.
  - exists_ok. first_by_computation H.
    exact (proj2 (proj2 (proj1 (search_results_within_limit dec_int dec_float manhattan)
                               (NearbyArgs None None None (Some "500")) _ _ _ E1 H))).
  - first_by_computation E2.
    exists_ok. first_by_computation H.
    exact (proj2 (proj2 (proj1 (proj2 (search_results_within_limit dec_int dec_float manhattan))
                               (SearchArgs None None None None None (Some "500")) _ _ _ E2 H))).
Defined.

Lemma total_found_is_returned_count_witness :
  (exists p, find_nearby_properties_dict dec_int dec_float manhattan no_nearby_args one_listing
             = Ok p /\ nb_total_found p = length (nb_properties p)) /\
  (exists p, search_properties_dict dec_int dec_float no_search_args one_listing
             = Ok p /\ total_found p = length (properties p)).
Proof.
  split.
  - exists_ok. first_by_computation H.
    exact (proj1 (proj1 (total_found_is_returned_count dec_int dec_float manhattan) _ _ _ H)).
  - exists_ok. first_by_computation H.
    exact (proj1 (proj1 (proj2 (total_found_is_returned_count dec_int dec_float manhattan))
                    _ _ _ H)).
Defined.

(** [lat=north] is rejected; the default search on a database that is
    down fails; a search far from the only listing builds an empty result
    and answers 500. *)
Lemma nearby_error_handling_witness :
  find_nearby_properties dec_int dec_float manhattan
    (NearbyArgs (Some "north") None None None) one_listing
  = Response 400 (ErrorBody "Invalid coordinates or radius") /\
  find_nearby_properties dec_int dec_float manhattan no_nearby_args sample_db_down
  = Response 500 (ErrorBody "Search failed") /\
  (find_nearby_properties_dict dec_int dec_float manhattan
     (NearbyArgs (Some "0") (Some "0") (Some "1") None) one_listing
   = Ok (NearbyPayload (0, 0) 1 0 []) /\
   find_nearby_properties dec_int dec_float manhattan
     (NearbyArgs (Some "0") (Some "0") (Some "1") None) one_listing
   = Response 500 (ErrorBody "Search failed")).
Proof.
  split; [|split].
  - apply (proj1 (nearby_error_handling dec_int dec_float manhattan
                    (NearbyArgs (Some "north") None None None) one_listing)).
    left. exists "north". split; [reflexivity | vm_compute; reflexivity].
  - apply (proj1 (proj2 (nearby_error_handling dec_int dec_float manhattan
                           no_nearby_args sample_db_down))
             (377749 # 10000) (-1224194 # 10000) 1000%Z 10%Z (DbError "could not connect to server"));
      try reflexivity.
    left; reflexivity.
  - apply (proj2 (proj2 (nearby_error_handling dec_int dec_float manhattan
                           (NearbyArgs (Some "0") (Some "0") (Some "1") None) one_listing))
             0 0 1%Z 10%Z); vm_compute; reflexivity.
Defined.

Lemma health_check_outcomes_witness :
  health_check sample_db_down "2026-01-01T00:00:00"
  = Response 500 (Success (Unhealthy "could not connect to server" "2026-01-01T00:00:00")) /\
  health_check one_listing "2026-01-01T00:00:00"
  = Response 200 (Success (Healthy "2026-01-01T00:00:00"
                             (HealthDatabase "PostgreSQL 15.4" "properties_db" "app" 0)
                             (HealthPostgis "3.4" true) (HealthSummary 1 1))).
Proof.
  split.
  - apply (proj1 (health_check_outcomes sample_db_down "2026-01-01T00:00:00")
             (DbError "could not connect to server")).
    left; reflexivity.
  - apply (proj2 (health_check_outcomes one_listing "2026-01-01T00:00:00")
             (HealthDatabase "PostgreSQL 15.4" "properties_db" "app" 0) "3.4" (1, 1)%nat);
      reflexivity.
Defined.

(** Decimals as rationals, datetimes as seconds; a [set] is refused. *)
Lemma serialize_result_cases_witness :
  serialize_result Q Q Z (fun x => x) (fun _ => "2026-01-01T00:00:00") (PyDecimal Q Q Z (5 # 2))
  = Ok (PyFloat Q Q Z (5 # 2)) /\
  serialize_result Q Q Z (fun x => x) (fun _ => "2026-01-01T00:00:00") (PyOther Q Q Z "set")
  = Raise (TypeError "Object of type <class 'set'> is not JSON serializable").
Proof.
  destruct (serialize_result_cases Q Q Z (fun x => x) (fun _ => "2026-01-01T00:00:00"))
    as (Hdec & _ & Hother).
  split; [apply Hdec|].
  apply (proj2 (Hother (PyOther Q Q Z "set") (fun x Hx => ltac:(discriminate Hx))
                       (fun t Ht => ltac:(discriminate Ht)))).
Defined.

(** A body without [price] is refused; [body_at_1_2] is stored as id 2. *)
Lemma add_property_outcomes_witness :
  add_property (Some (JObj [("address", JStr "9 Elm St"); ("latitude", JNum 1);
                            ("longitude", JNum 2)])) one_listing
  = (Response 400 (ErrorBody "Missing required fields"), one_listing) /\
  fst (add_property (Some (JObj body_at_1_2)) one_listing)
  = Response 201 (Success (InsertPayload true 2 "Property added successfully")).
Proof.
  split.
  - apply (proj1 (add_property_outcomes _ one_listing)).
    exists "price". split; [right; left; reflexivity | reflexivity].
  - rewrite (proj1 (proj2 (add_property_outcomes body_at_1_2 one_listing))
               (JStr "9 Elm St") (JNum 350000) (JNum 1) (JNum 2) eq_refl eq_refl eq_refl eq_refl).
    vm_compute. reflexivity.
Defined.

(** C3 fails for a body holding the four keys when the database is down:
    the response is HTTP 500, not 201. *)
Lemma add_property_store_down_counterexample :
  lookup_key "address" body_at_1_2 = Some (JStr "9 Elm St") /\
  lookup_key "price" body_at_1_2 = Some (JNum 350000) /\
  lookup_key "latitude" body_at_1_2 = Some (JNum 1) /\
  lookup_key "longitude" body_at_1_2 = Some (JNum 2) /\
  add_property (Some (JObj body_at_1_2)) sample_db_down
  = (Response 500 (ErrorBody "Failed to add property"), sample_db_down).
Proof. repeat split; vm_compute; reflexivity. Qed.

(** Insert at latitude 1, longitude 2 next to a listing at the default
    centre, then search there with the defaults: the new id 2 is found. *)
Lemma insert_then_nearby_finds_it_witness :
  exists p, find_nearby_properties_dict dec_int dec_float manhattan
              (NearbyArgs (Some "1") (Some "2") None None)
              (snd (add_property (Some (JObj body_at_1_2)) one_listing))
            = Ok p /\
    exists x, In x (nb_properties p) /\ nb_id x = 2%Z /\ nb_longitude x = 2 /\ nb_latitude x = 1.
Proof.
  refine (proj2 (insert_then_nearby_finds_it dec_int dec_float manhattan body_at_1_2 one_listing
                   (JStr "9 Elm St") (JNum 350000) 2 1 2
                   (snd (add_property (Some (JObj body_at_1_2)) one_listing))
                   (NearbyArgs (Some "1") (Some "2") None None) "1" "2" 1000 10
                   manhattan_self _ _ _ _ _ _ _ _ _ _ _ _ _ _)).
  - intros r p Hr Hl. vm_compute in Hr. destruct Hr as [<-|[]].
    vm_compute in Hl. injection Hl as <-. reflexivity.
  - reflexivity.
  - reflexivity.
  - reflexivity.
  - reflexivity.
  - vm_compute. reflexivity.
  - reflexivity.
  - vm_compute. reflexivity.
  - reflexivity.
  - vm_compute. reflexivity.
  - reflexivity.
  - lia.
  - reflexivity.
  - apply Nat.ltb_lt. vm_compute. reflexivity.
Defined.

(** C6 fails as stated: after the same insert, [limit=0] builds a result
    with no listing; and with ten listings already stored at the point,
    the default limit 10 keeps those ten and not the new id 11.  Both
    searches answer HTTP 500. *)
Lemma insert_then_nearby_limit_counterexample :
  fst (add_property (Some (JObj body_at_1_2)) one_listing)
  = Response 201 (Success (InsertPayload true 2 "Property added successfully")) /\
  find_nearby_properties_dict dec_int dec_float manhattan
    (NearbyArgs (Some "1") (Some "2") None (Some "0"))
    (snd (add_property (Some (JObj body_at_1_2)) one_listing))
  = Ok (NearbyPayload (1, 2) 1000 0 []) /\
  find_nearby_properties dec_int dec_float manhattan
    (NearbyArgs (Some "1") (Some "2") None (Some "0"))
    (snd (add_property (Some (JObj body_at_1_2)) one_listing))
  = Response 500 (ErrorBody "Search failed") /\
  fst (add_property (Some (JObj body_at_1_2)) ten_listings_at_2_1)
  = Response 201 (Success (InsertPayload true 11 "Property added successfully")) /\
  (exists p, find_nearby_properties_dict dec_int dec_float manhattan
               (NearbyArgs (Some "1") (Some "2") None None)
               (snd (add_property (Some (JObj body_at_1_2)) ten_listings_at_2_1))
             = Ok p /\
     length (nb_properties p) = 10%nat /\
     forallb (fun x => negb (Z.eqb (nb_id x) 11)) (nb_properties p) = true) /\
  find_nearby_properties dec_int dec_float manhattan
    (NearbyArgs (Some "1") (Some "2") None None)
    (snd (add_property (Some (JObj body_at_1_2)) ten_listings_at_2_1))
  = Response 500 (ErrorBody "Search failed").
Proof.
  do 4 (split; [vm_compute; reflexivity|]).
  split; [|vm_compute; reflexivity].
  exists_ok. split; [vm_compute; reflexivity|]. split; vm_compute; reflexivity.
Qed.

(** ** The filtered search: which rows it returns *)

Lemma col_ge_true col v : col_ge col v = true -> exists b, col = Some b /\ (v <= b)%Q.
Proof. destruct col as [b|]; simpl; [intros H; apply Qle_bool_iff in H; eauto | discriminate]. Qed.


Lemma eval_where_builder_iff pm pM bd bt pt limit pred rest r :
  eval_where (fst (search_builder pm pM bd bt pt limit))
             (snd (search_builder pm pM bd bt pt limit)) = Ok (pred, rest) ->
  pred r = true <-> filters_hold pm pM bd bt pt r.
Proof.
  unfold search_builder, truthy_int, truthy_float, truthy_str.
  destruct pm as [a|]; [destruct (Z.eqb_spec a 0)|];
  destruct pM as [b|]; try destruct (Z.eqb_spec b 0);
  destruct bd as [c|]; try destruct (Z.eqb_spec c 0);
  destruct bt as [w|]; try destruct (Qeq_bool w 0) eqn:Ee;
  destruct pt as [f|]; try destruct (String.eqb_spec f "");
  cbn -[Qle_bool ilike col_ge inject_Z base_condition]; intros H;
  injection H as <- _; split.
  all: try (intros Hp; unfold filters_hold;
    repeat match goal with Hx : _ && _ = true |- _ =>
      let H1 := fresh "Hc" in apply andb_prop in Hx; destruct Hx as [H1 Hx] end;
    repeat split; intros;
    repeat match goal with
     | Hv : Some _ = Some _ |- _ => injection Hv as <-
     | Hv : None = Some _ |- _ => discriminate Hv
     end;
    try contradiction;
    try (match goal with Ee : Qeq_bool _ _ = true |- _ =>
           apply Qeq_bool_iff in Ee; contradiction end);
    repeat match goal with
     | Hs : (match listing_status ?x with Some _ => _ | None => _ end) = true |- _ =>
         destruct (listing_status x) as [s|];
         [apply String.eqb_eq in Hs; subst; reflexivity | discriminate]
     | Ht : (match property_type ?x with Some _ => _ | None => _ end) = true |- _ =>
         destruct (property_type x) as [t|]; [exists t; split; [reflexivity | exact Ht] | discriminate]
     | Hq : Qle_bool _ _ = true |- _ => apply Qle_bool_iff; exact Hq
     | Hc : col_ge _ _ = true |- _ => apply col_ge_true; exact Hc
     end; fail).
  all: intros Hf; destruct Hf as (Ha & Hmin & Hmax & Hbd & Hbt & Hpt);
    repeat (apply andb_true_intro; split);
    try reflexivity;
    try (rewrite Ha; reflexivity);
    try (apply Qle_bool_iff; first [apply Hmin | apply Hmax]; [reflexivity | assumption]);
    try (destruct (Hbd _ eq_refl ltac:(assumption)) as (bv & -> & Hb); apply Qle_bool_iff; exact Hb);
    try (assert (Hw : ~ (w == 0)) by (intro Hq; apply Qeq_bool_iff in Hq; congruence);
         destruct (Hbt _ eq_refl Hw) as (bv & -> & Hb); apply Qle_bool_iff; exact Hb);
    try (destruct (Hpt _ eq_refl ltac:(assumption)) as (t & -> & Ht); exact Ht).
Qed.

Lemma like_pct_cons p c s :
  like (String "%" p) (String c s) = like p (String c s) || like (String "%" p) s.
Proof. reflexivity. Qed.

Lemma like_pct_nil p : like (String "%" p) "" = like p "" || false.
Proof. reflexivity. Qed.

Lemma like_pct_any s : like "%" s = true.
Proof.
  induction s as [|c s IH]; [reflexivity|].
  rewrite like_pct_cons, IH. apply orb_true_r.
Qed.

Lemma like_prefix v s :
  wildcard_free v = true -> like (v ++ "%") s = is_prefix v s.
Proof.
  revert s; induction v as [|c v IH]; intros s Hw.
  - apply like_pct_any.
  - cbn [wildcard_free] in Hw.
    apply andb_prop in Hw as [Hw Hv]. apply andb_prop in Hw as [Hw H3].
    apply andb_prop in Hw as [H1 H2]. apply negb_true_iff in H1, H2, H3.
    cbn [append like]. rewrite H1, H2, H3.
    destruct s as [|d s]; [reflexivity|]. cbn [is_prefix]. rewrite IH by exact Hv. reflexivity.
Qed.

Lemma like_contains v s :
  wildcard_free v = true -> like (String "%" (v ++ "%")) s = contains v s.
Proof.
  intros Hw. induction s as [|c s IH].
  - rewrite like_pct_nil, like_prefix by exact Hw. reflexivity.
  - rewrite like_pct_cons, like_prefix, IH by exact Hw. reflexivity.
Qed.

Lemma lower_app a b : lower (a ++ b) = lower a ++ lower b.
Proof. induction a as [|c a IH]; simpl; [reflexivity | rewrite IH; reflexivity]. Qed.

Lemma lower_ascii_wild c :
  Ascii.eqb (lower_ascii c) "%" = Ascii.eqb c "%" /\
  Ascii.eqb (lower_ascii c) "_" = Ascii.eqb c "_" /\
  Ascii.eqb (lower_ascii c) "\" = Ascii.eqb c "\".
Proof. destruct c as [[] [] [] [] [] [] [] []]; (split; [|split]); reflexivity. Qed.

Lemma wildcard_free_lower v : wildcard_free (lower v) = wildcard_free v.
Proof.
  induction v as [|c v IH]; [reflexivity|]. cbn [lower wildcard_free].
  destruct (lower_ascii_wild c) as (-> & -> & ->). rewrite IH. reflexivity.
Qed.

(** The [property_type ILIKE '%v%'] predicate, for a value with no
    wildcard or escape character, is a case-insensitive substring test. *)
Theorem ilike_substring t v :
  wildcard_free v = true ->
  ilike t ("%" ++ v ++ "%") = contains (lower v) (lower t).
Proof.
  intros Hw. unfold ilike. rewrite lower_app, lower_app.
  change (lower "%") with "%". cbn [append].
  apply like_contains. rewrite wildcard_free_lower. exact Hw.
Qed.

Lemma exec_search_builder_rows pm pM bd bt pt limit d cs ps rows :
  search_builder pm pM bd bt pt limit = (cs, ps) ->
  exec_search d cs ps = Ok rows ->
  exists pred, (forall r, pred r = true <-> filters_hold pm pM bd bt pt r) /\
    rows = map search_project
             (firstn (Z.to_nat limit) (sort_by price (filter pred (db_rows d)))) /\
    (0 <= limit)%Z.
Proof.
  intros B. replace cs with (fst (search_builder pm pM bd bt pt limit)) by (rewrite B; reflexivity).
  replace ps with (snd (search_builder pm pM bd bt pt limit)) by (rewrite B; reflexivity).
  unfold exec_search. intros H. inv_ok H. inv_ok H. destruct v0 as [pred rest].
  pose proof Hv0 as Hw. rewrite search_builder_pairs in Hw. cbn [fst snd] in Hw.
  apply eval_where_consumes in Hw. subst rest.
  inv_ok H. injection H as <-. apply sql_limit_length in Hv1 as [-> Hl].
  exists pred. split; [|split; [reflexivity | exact Hl]].
  intros r. exact (eval_where_builder_iff _ _ _ _ _ _ _ _ r Hv0).
Qed.

Lemma not_in_firstn_sorted {A} (key : A -> Q) n l x :
  Sorted (key_le key) l -> In x l -> ~ In x (firstn n l) ->
  length (firstn n l) = n /\ Forall (fun y => key y <= key x) (firstn n l).
Proof.
  intros Hs. apply Sorted_StronglySorted in Hs; [|exact (key_le_trans key)].
  revert n; induction Hs as [|y l Hs IH Hall]; intros n Hin Hout; [destruct Hin|].
  destruct n as [|n]; [split; [reflexivity | constructor]|].
  cbn [firstn] in *. destruct Hin as [->|Hin]; [exfalso; apply Hout; left; reflexivity|].
  destruct (IH n Hin (fun H => Hout (or_intror H))) as [Hl Hf].
  split; [cbn [length]; rewrite Hl; reflexivity|].
  constructor; [|exact Hf]. rewrite Forall_forall in Hall. exact (Hall x Hin).
Qed.

Lemma Sorted_map_project l :
  Sorted (key_le price) l ->
  Sorted (fun x y => s_price x <= s_price y) (map search_project l).
Proof.
  induction 1 as [|y l Hs IH Hd]; cbn [map]; constructor; [exact IH|].
  destruct Hd; cbn [map]; constructor. exact H.
Qed.

(** Every row of the filtered search's result dict is the projection of a
    stored row that is active and satisfies each filter the handler kept. *)
Theorem search_rows_match_filters parse_int parse_float a d p :
  search_properties_dict parse_int parse_float a d = Ok p ->
  Forall (fun x => exists r, In r (db_rows d) /\ x = search_project r /\
            filters_hold (arg_as_int parse_int (q_price_min a))
              (arg_as_int parse_int (q_price_max a)) (arg_as_int parse_int (q_bedrooms a))
              (arg_as_float parse_float (q_bathrooms a)) (q_property_type a) r)
    (properties p).
Proof.
  intros H. apply search_properties_dict_ok in H
    as (limit0 & conditions & params & rows & _ & B & _ & Hex & ->).
  cbn [properties].
  destruct (exec_search_builder_rows _ _ _ _ _ _ _ _ _ _ B Hex) as (pred & Hiff & -> & _).
  apply Forall_forall. intros x Hx. apply in_map_iff in Hx as (r & <- & Hr).
  apply in_firstn, In_sort_by, filter_In in Hr as [Hr Hp].
  exists r. split; [exact Hr | split; [reflexivity | apply Hiff, Hp]].
Qed.

(** The filtered search's result dict lists its rows in non-decreasing
    price. *)
Theorem search_sorted_by_price parse_int parse_float a d p :
  search_properties_dict parse_int parse_float a d = Ok p ->
  Sorted (fun x y => s_price x <= s_price y) (properties p).
Proof.
  intros H. apply search_properties_dict_ok in H
    as (limit0 & conditions & params & rows & _ & B & _ & Hex & ->).
  cbn [properties].
  destruct (exec_search_builder_rows _ _ _ _ _ _ _ _ _ _ B Hex) as (pred & _ & -> & _).
  apply Sorted_map_project, firstn_sorted, sort_by_sorted.
Qed.

(** A stored row matching the filters is left out of the filtered search's
    result dict only when LIMIT is full: the dict then holds exactly the
    effective limit of rows, none priced above the left-out row. *)
Theorem search_limit_drops_only_pricier parse_int parse_float a d p lim r :
  search_properties_dict parse_int parse_float a d = Ok p ->
  effective_limit parse_int (q_limit a) 20 = Ok lim ->
  In r (db_rows d) ->
  filters_hold (arg_as_int parse_int (q_price_min a)) (arg_as_int parse_int (q_price_max a))
    (arg_as_int parse_int (q_bedrooms a)) (arg_as_float parse_float (q_bathrooms a))
    (q_property_type a) r ->
  ~ In (search_project r) (properties p) ->
  length (properties p) = Z.to_nat lim /\
  Forall (fun x => s_price x <= price r) (properties p).
Proof.
  intros H Hlim Hr Hf Hout. apply search_properties_dict_ok in H
    as (limit0 & conditions & params & rows & Hl & B & _ & Hex & ->).
  unfold effective_limit in Hlim. rewrite Hl in Hlim. injection Hlim as <-.
  cbn [properties] in *.
  destruct (exec_search_builder_rows _ _ _ _ _ _ _ _ _ _ B Hex) as (pred & Hiff & -> & _).
  remember (sort_by price (filter pred (db_rows d))) as l eqn:El.
  assert (Hin : In r l) by (subst l; apply In_sort_by, filter_In; split; [exact Hr | apply Hiff, Hf]).
  assert (Hnot : ~ In r (firstn (Z.to_nat (Z.min limit0 100)) l))
    by (intros Hx; apply Hout, in_map, Hx).
  destruct (not_in_firstn_sorted price _ l r ltac:(subst l; apply sort_by_sorted) Hin Hnot)
    as [Hlen Hall].
  split; [rewrite length_map; exact Hlen|].
  apply Forall_forall. intros x Hx. apply in_map_iff in Hx as (y & <- & Hy).
  rewrite Forall_forall in Hall. exact (Hall y Hy).
Qed.

(** ** What the two searches answer *)

(** The filtered search answers HTTP 500 "Search failed" to every request
    on every store: a bad [limit] raises [ValueError], a store failure
    raises in [cur.execute], and a built result makes
    [jsonify(..., default=serialize_result)] raise [TypeError]. *)
Theorem search_properties_always_fails parse_int parse_float a d :
  search_properties parse_int parse_float a d = Response 500 (ErrorBody "Search failed").
Proof. apply search_properties_500. Qed.

Lemma float_arg_or_raise parse_float o dflt e :
  float_arg_or parse_float o dflt = Raise e -> exists s, o = Some s /\ parse_float s = None.
Proof.
  unfold float_arg_or. destruct o as [s|]; [|discriminate].
  destruct (parse_float s) eqn:E; [discriminate|]. intros _. eauto.
Qed.

Lemma int_arg_or_raise parse_int o dflt e :
  int_arg_or parse_int o dflt = Raise e -> exists s, o = Some s /\ parse_int s = None.
Proof.
  unfold int_arg_or. destruct o as [s|]; [|discriminate].
  destruct (parse_int s) eqn:E; [discriminate|]. intros _. eauto.
Qed.

Lemma connect_raise d e : connect d = Raise e -> exists m, e = DbError m.
Proof. unfold connect. destruct (db_up d); [discriminate|]. intros H; injection H as <-; eauto. Qed.

(** Building the nearby dict raises [ValueError] exactly when one of the
    four query arguments does not parse. *)
Lemma nearby_dict_value_error parse_int parse_float st_distance a d :
  ((exists s, n_lat a = Some s /\ parse_float s = None) \/
   (exists s, n_lng a = Some s /\ parse_float s = None) \/
   (exists s, n_radius a = Some s /\ parse_int s = None) \/
   (exists s, n_limit a = Some s /\ parse_int s = None)) <->
  exists m, find_nearby_properties_dict parse_int parse_float st_distance a d
            = Raise (ValueError m).
Proof.
  unfold find_nearby_properties_dict.
  destruct (float_arg_or parse_float (n_lat a) (377749 # 10000)) as [lat|e1] eqn:E1;
    cbn [rbind].
  2:{ destruct (float_arg_or_cases parse_float (n_lat a) (377749 # 10000))
        as [[q Hq] | [m Hm]]; rewrite E1 in *; [discriminate|]. injection Hm as ->.
      split; [eauto|]. intros _. left. exact (float_arg_or_raise _ _ _ _ E1). }
  destruct (float_arg_or parse_float (n_lng a) (-1224194 # 10000)) as [lng|e2] eqn:E2;
    cbn [rbind].
  2:{ destruct (float_arg_or_cases parse_float (n_lng a) (-1224194 # 10000))
        as [[q Hq] | [m Hm]]; rewrite E2 in *; [discriminate|]. injection Hm as ->.
      split; [eauto|]. intros _. right; left. exact (float_arg_or_raise _ _ _ _ E2). }
  destruct (int_arg_or parse_int (n_radius a) 1000) as [radius|e3] eqn:E3; cbn [rbind].
  2:{ destruct (int_arg_or_cases parse_int (n_radius a) 1000)
        as [[z Hz] | [m Hm]]; rewrite E3 in *; [discriminate|]. injection Hm as ->.
      split; [eauto|]. intros _. right; right; left. exact (int_arg_or_raise _ _ _ _ E3). }
  destruct (int_arg_or parse_int (n_limit a) 10) as [limit0|e4] eqn:E4; cbn [rbind].
  2:{ destruct (int_arg_or_cases parse_int (n_limit a) 10)
        as [[z Hz] | [m Hm]]; rewrite E4 in *; [discriminate|]. injection Hm as ->.
      split; [eauto|]. intros _. right; right; right. exact (int_arg_or_raise _ _ _ _ E4). }
  split.
  - intros [(s & Hs & Hp) | [(s & Hs & Hp) | [(s & Hs & Hp) | (s & Hs & Hp)]]].
    + rewrite (float_arg_or_bad _ _ _ _ Hs Hp) in E1. discriminate.
    + rewrite (float_arg_or_bad _ _ _ _ Hs Hp) in E2. discriminate.
    + rewrite (int_arg_or_bad _ _ _ _ Hs Hp) in E3. discriminate.
    + rewrite (int_arg_or_bad _ _ _ _ Hs Hp) in E4. discriminate.
  - intros [m Hm]. exfalso.
    destruct (connect d) as [[]|e] eqn:Ec; cbn [rbind] in Hm.
    + destruct (exec_nearby st_distance d lng lat radius (Z.min limit0 100)) as [props|e] eqn:Ex;
        cbn [rbind] in Hm; [discriminate|].
      injection Hm as ->. destruct (exec_nearby_db_error _ _ _ _ _ _ _ Ex) as [m' E].
      discriminate E.
    + injection Hm as ->. destruct (connect_raise _ _ Ec) as [m' E]. discriminate E.
Qed.

(** The nearby search answers HTTP 400 "Invalid coordinates or radius"
    when [lat], [lng], [radius] or [limit] does not parse, and HTTP 500
    "Search failed" otherwise: a store failure, a negative limit, and a
    built result alike ([jsonify(..., default=serialize_result)] raises
    [TypeError]). *)
Theorem nearby_answers_400_or_500 parse_int parse_float st_distance a d :
  let bad := (exists s, n_lat a = Some s /\ parse_float s = None) \/
             (exists s, n_lng a = Some s /\ parse_float s = None) \/
             (exists s, n_radius a = Some s /\ parse_int s = None) \/
             (exists s, n_limit a = Some s /\ parse_int s = None) in
  (bad -> find_nearby_properties parse_int parse_float st_distance a d
          = Response 400 (ErrorBody "Invalid coordinates or radius")) /\
  (~ bad -> find_nearby_properties parse_int parse_float st_distance a d
            = Response 500 (ErrorBody "Search failed")).
Proof.
  intros bad. subst bad. rewrite find_nearby_properties_answer. split.
  - intros Hb. apply (nearby_dict_value_error parse_int parse_float st_distance a d) in Hb
      as [m ->]. reflexivity.
  - intros Hnb.
    destruct (find_nearby_properties_dict parse_int parse_float st_distance a d)
      as [p|[m|m|m|m]] eqn:E; try reflexivity.
    exfalso. apply Hnb, (proj2 (nearby_dict_value_error parse_int parse_float st_distance a d)).
    eauto.
Qed.

(** ** What LIMIT leaves out of the nearby search *)
Lemma nearby_scan_complete st_distance center radius rs hits r x :
  nearby_scan st_distance center radius rs = Ok hits -> In r rs ->
  nearby_candidate st_distance center radius r = Ok (Some x) -> In x hits.
Proof.
  revert hits; induction rs as [|r' rs IH]; intros hits H Hin Hc; [destruct Hin|].
  cbn [nearby_scan] in H. inv_ok H. inv_ok H. injection H as <-.
  destruct Hin as [->|Hin].
  - rewrite Hc in Hv. injection Hv as <-. left; reflexivity.
  - specialize (IH _ Hv0 Hin Hc). destruct v; [right|]; exact IH.
Qed.

(** A stored point (SRID 4326) within the radius is left out of the nearby
    search's result dict only when LIMIT is full: the dict then holds
    exactly the effective limit of rows, none farther than the left-out one. *)
Theorem nearby_limit_drops_only_farther parse_int parse_float st_distance a d p lim r q :
  find_nearby_properties_dict parse_int parse_float st_distance a d = Ok p ->
  effective_limit parse_int (n_limit a) 10 = Ok lim ->
  In r (db_rows d) -> location r = Some q -> srid q = 4326%Z ->
  let center := st_geom_from_point_text (snd (search_center p)) (fst (search_center p)) in
  (st_distance q center <= inject_Z (radius_meters p))%Q ->
  (forall y, In y (nb_properties p) -> nb_id y <> id r) ->
  length (nb_properties p) = Z.to_nat lim /\
  Forall (fun y => distance_meters y <= st_distance q center) (nb_properties p).
Proof.
  intros H Hlim Hr Hloc Hs center Hle Hout.
  apply find_nearby_properties_dict_ok in H
    as (lat & lng & radius & limit0 & props & _ & _ & _ & Hl & _ & Hex & ->).
  unfold effective_limit in Hlim. rewrite Hl in Hlim. injection Hlim as <-.
  subst center. cbn [search_center radius_meters nb_properties fst snd] in *.
  unfold exec_nearby in Hex. inv_ok Hex. inv_ok Hex. rename v0 into hits, Hv0 into Hh.
  apply sql_limit_length in Hex as [-> _].
  assert (Hc : nearby_candidate st_distance (st_geom_from_point_text lng lat) radius r =
    Ok (Some (NearbyRow (id r) (address r) (price r) (bedrooms r) (bathrooms r)
                (square_feet r) (property_type r) (listing_status r) (px q) (py q)
                (st_distance q (st_geom_from_point_text lng lat)) (created_at r)))).
  { unfold nearby_candidate. rewrite Hloc, Hs. cbn [srid st_geom_from_point_text].
    rewrite Z.eqb_refl, (proj2 (Qle_bool_iff _ _) Hle). reflexivity. }
  pose proof (nearby_scan_complete _ _ _ _ _ _ _ Hh Hr Hc) as Hin.
  apply (In_sort_by distance_meters) in Hin.
  destruct (not_in_firstn_sorted distance_meters (Z.to_nat (Z.min limit0 100)) _ _
              (sort_by_sorted distance_meters hits) Hin) as [Hlen Hall].
  { intros Hx. exact (Hout _ Hx eq_refl). }
  split; [exact Hlen | exact Hall].
Qed.

(** With non-negative distances, the nearby search's result dict for a
    negative radius holds no property and [total_found = 0]. *)
Theorem nearby_negative_radius_empty parse_int parse_float st_distance a d p :
  (forall x y, 0 <= st_distance x y)%Q ->
  find_nearby_properties_dict parse_int parse_float st_distance a d = Ok p ->
  (radius_meters p < 0)%Z ->
  nb_properties p = [] /\ nb_total_found p = 0%nat.
Proof.
  intros Hnn H Hneg.
  apply find_nearby_properties_dict_ok in H
    as (lat & lng & radius & limit0 & props & _ & _ & _ & _ & _ & Hex & ->).
  cbn [radius_meters nb_properties nb_total_found] in *.
  apply exec_nearby_spec in Hex as (_ & _ & Hin).
  destruct props as [|x props]; [split; reflexivity|exfalso].
  destruct (Hin x (or_introl eq_refl)) as (r & _ & Hc).
  destruct (nearby_candidate_some _ _ _ _ _ Hc) as (q & _ & _ & _ & Hle & _).
  pose proof (Qle_trans _ _ _ (Hnn q _) Hle) as H0.
  change 0%Q with (inject_Z 0) in H0. rewrite <- Zle_Qle in H0. lia.
Qed.

(** ** Effect of the insert handler on the store *)
Lemma add_property_cases body d resp d' :
  add_property body d = (resp, d') ->
  (exists kvs nid args, body = Some (JObj kvs) /\ connect d = Ok tt /\
     db_insert d args = Ok (nid, d') /\
     resp = Response 201 (Success (InsertPayload true nid "Property added successfully"))) \/
  ((resp = Response 400 (ErrorBody "Missing required fields") \/
    resp = Response 500 (ErrorBody "Failed to add property")) /\ d' = d).
Proof.
  intros H. unfold add_property in H.
  lazymatch type of H with (match ?r with _ => _ end = _) => destruct r as [o|e] eqn:R end.
  - destruct o as [[nid d'']|].
    + injection H as <- <-. left.
      inv_ok R. inv_ok R. destruct (negb v0); [discriminate|].
      repeat inv_ok R. injection R as ->.
      destruct body as [j|]; [|discriminate]. injection Hv as <-.
      destruct j; try discriminate. destruct v1.
      do 3 eexists. split; [reflexivity|]. split; [exact Hv1|]. split; [exact Hv10|reflexivity].
    + injection H as <- <-. right; auto.
  - injection H as <- <-. right; auto.
Qed.

Lemma db_insert_append_row d args nid d' :
  db_insert d args = Ok (nid, d') ->
  nid = db_next_id d /\ exists row, d' = db_append d row /\ id row = nid /\ location row <> None.
Proof.
  unfold db_insert. intros H. do 9 inv_ok H. injection H as <- <-.
  split; [reflexivity|]. eexists; split; [reflexivity|]. split; [reflexivity | discriminate].
Qed.

(** The insert handler either answers HTTP 201 with the next id and appends
    exactly one row with that id and a non-null location, or answers with
    another status and leaves the rows unchanged. *)
Theorem add_property_store_effect body d resp d' :
  add_property body d = (resp, d') ->
  (status resp = 201%Z /\ exists nid row,
     payload resp = Success (InsertPayload true nid "Property added successfully") /\
     nid = db_next_id d /\ db_rows d' = app (db_rows d) [row] /\ id row = nid /\
     location row <> None) \/
  (status resp <> 201%Z /\ db_rows d' = db_rows d).
Proof.
  intros H. destruct (add_property_cases _ _ _ _ H)
    as [(kvs & nid & args & _ & _ & Hi & ->) | [Hr ->]].
  - left. split; [reflexivity|]. apply db_insert_append_row in Hi as (Hn & row & -> & Hid & Hl).
    exists nid, row. repeat split; auto.
  - right. split; [destruct Hr as [->| ->]; discriminate | reflexivity].
Qed.

(** A request whose body is not a JSON object never creates a row: the
    answer is HTTP 400 or HTTP 500. *)
Theorem add_property_non_object_body body d :
  (forall kvs, body <> Some (JObj kvs)) ->
  (fst (add_property body d) = Response 400 (ErrorBody "Missing required fields") \/
   fst (add_property body d) = Response 500 (ErrorBody "Failed to add property")) /\
  snd (add_property body d) = d.
Proof.
  intros Hb. destruct (add_property body d) as [resp d'] eqn:E. cbn [fst snd].
  destruct (add_property_cases _ _ _ _ E) as [(kvs & _ & _ & Hk & _) | [Hr ->]].
  - exfalso. exact (Hb kvs Hk).
  - split; [exact Hr | reflexivity].
Qed.

(** ** Health check counts *)
Lemma health_check_200 d now h :
  health_check d now = Response 200 (Success h) ->
  exists i v c, probe_connectivity d = Ok i /\ probe_postgis d = Ok v /\ probe_counts d = Ok c /\
    h = Healthy now i (HealthPostgis v true) (HealthSummary (fst c) (snd c)).
Proof.
  unfold health_check.
  lazymatch goal with |- (match ?r with _ => _ end = _) -> _ => destruct r as [h'|e] eqn:R end;
    intros H; [|discriminate].
  injection H as <-. do 3 inv_ok R. injection R as <-.
  exists v, v0, v1. auto.
Qed.

Lemma filter_length_le {A} (f : A -> bool) l : (length (filter f l) <= length l)%nat.
Proof. induction l as [|x l IH]; simpl; [lia | destruct (f x); simpl; lia]. Qed.

(** A successful health check reports [total_properties] as the number of
    stored rows and [properties_with_location] no larger than it. *)
Theorem health_location_count_bounded d now h :
  health_check d now = Response 200 (Success h) ->
  exists i v s, h = Healthy now i v s /\
    (properties_with_location s <= total_properties s)%nat /\
    total_properties s = length (db_rows d).
Proof.
  intros H. apply health_check_200 in H as (i & v & c & _ & _ & Hc & ->).
  unfold probe_counts in Hc. inv_ok Hc. injection Hc as <-.
  do 3 eexists. split; [reflexivity|]. cbn [fst snd properties_with_location total_properties].
  split; [apply filter_length_le | reflexivity].
Qed.

(** After a successful insert, a health check that succeeded before
    reports one more property and one more located property. *)
Theorem health_after_insert d now body nid d' i v t w :
  health_check d now = Response 200 (Success (Healthy now i v (HealthSummary t w))) ->
  add_property body d =
    (Response 201 (Success (InsertPayload true nid "Property added successfully")), d') ->
  exists i', health_check d' now =
    Response 200 (Success (Healthy now i' v (HealthSummary (S t) (S w)))).
Proof.
  intros H Ha. apply health_check_200 in H as (i0 & v0 & c & Hi & Hv & Hc & E).
  injection E as E1 E2 Ht Hw. subst i v.
  destruct (add_property_cases _ _ _ _ Ha) as [(kvs & nid' & args & _ & _ & Hins & _) | [[E|E] _]];
    [|discriminate|discriminate].
  apply db_insert_append_row in Hins as (_ & row & -> & _ & Hl).
  unfold probe_counts in Hc. apply rbind_Ok in Hc as (u & Htab & Hc).
  injection Hc as <-. cbn [fst snd] in Ht, Hw.
  unfold probe_connectivity in Hi. apply rbind_Ok in Hi as (u' & Hup & _).
  exists (HealthDatabase (db_version d) (db_name d) (db_user d) (db_clock d)).
  unfold health_check, probe_connectivity, probe_counts, probe_postgis, table_exists, connect.
  cbn [db_up db_table db_rows db_postgis db_append db_version db_name db_user db_clock].
  unfold connect in Hup. destruct (db_up d); [|discriminate]. cbn [rbind].
  unfold table_exists in Htab. destruct (db_table d); [|discriminate]. cbn [rbind].
  unfold probe_postgis in Hv. destruct (db_postgis d) as [pv|]; [|discriminate].
  injection Hv as <-. cbn [rbind fst snd].
  rewrite length_app, filter_app, length_app. cbn [filter length].
  destruct (location row) as [q|]; [|congruence]. cbn [length].
  rewrite <- Ht, <- Hw. do 4 f_equal; lia.
Qed.

(** ** Runs of the handlers for the properties above *)

Lemma qabs_nonneg q : (0 <= qabs q)%Q.
Proof.
  unfold qabs. destruct (Qle_bool 0 q) eqn:E; [apply Qle_bool_iff; exact E|].
  assert (Hq : (q < 0)%Q) by (apply Qnot_le_lt; intros H; apply Qle_bool_iff in H; congruence).
  apply Qlt_le_weak, Qopp_le_compat in Hq. exact Hq.
Qed.

Lemma manhattan_nonneg p q : (0 <= manhattan p q)%Q.
Proof.
  unfold manhattan. apply Qle_trans with (0 + 0)%Q; [apply Qle_bool_iff; reflexivity|].
  apply Qplus_le_compat; apply qabs_nonneg.
Qed.

(** [price_max=600000&property_type=HOUSE] keeps the house only. *)
Lemma search_rows_match_filters_witness :
  exists p, search_properties_dict dec_int dec_float
              (SearchArgs None (Some "600000") None None (Some "HOUSE") None) two_listings
            = Ok p /\
    length (properties p) = 1%nat /\
    Forall (fun x => exists r, In r (db_rows two_listings) /\ x = search_project r /\
              filters_hold None (Some 600000%Z) None None (Some "HOUSE") r)
      (properties p).
Proof.
  exists_ok. first_by_computation H. split; [reflexivity|].
  exact (search_rows_match_filters dec_int dec_float _ _ _ H).
Defined.

Lemma search_sorted_by_price_witness :
  exists p, search_properties_dict dec_int dec_float no_search_args two_listings
            = Ok p /\
    length (properties p) = 2%nat /\
    Sorted (fun x y => s_price x <= s_price y) (properties p).
Proof.
  exists_ok. first_by_computation H. split; [reflexivity|].
  exact (search_sorted_by_price dec_int dec_float _ _ _ H).
Defined.

(** [limit=1] on two matching listings leaves out the condominium. *)
Lemma search_limit_drops_only_pricier_witness :
  exists p, search_properties_dict dec_int dec_float
              (SearchArgs None None None None None (Some "1")) two_listings
            = Ok p /\
    length (properties p) = Z.to_nat 1 /\
    Forall (fun x => s_price x <= price condo_row) (properties p).
Proof.
  exists_ok. first_by_computation H.
  apply (search_limit_drops_only_pricier dec_int dec_float _ _ _ 1%Z condo_row H).
  - vm_compute; reflexivity.
  - left; reflexivity.
  - repeat split; try reflexivity; intros v Hv; discriminate Hv.
  - vm_compute. intros [Hx|[]]. discriminate Hx.
Defined.

Lemma ilike_substring_witness :
  wildcard_free "house" = true /\
  ilike "Single Family HOUSE" ("%" ++ "house" ++ "%")
  = contains (lower "house") (lower "Single Family HOUSE").
Proof. first_by_computation H. exact (ilike_substring _ _ H). Defined.

(** [limit=ten] is rejected with 400; [limit=-1] and a valid request both
    get 500. *)
Lemma nearby_answers_400_or_500_witness :
  find_nearby_properties dec_int dec_float manhattan (NearbyArgs None None None (Some "ten"))
    one_listing = Response 400 (ErrorBody "Invalid coordinates or radius") /\
  find_nearby_properties dec_int dec_float manhattan (NearbyArgs None None None (Some "-1"))
    one_listing = Response 500 (ErrorBody "Search failed") /\
  find_nearby_properties dec_int dec_float manhattan no_nearby_args one_listing
  = Response 500 (ErrorBody "Search failed").
Proof.
  split; [|split].
  - apply (proj1 (nearby_answers_400_or_500 dec_int dec_float manhattan
                    (NearbyArgs None None None (Some "ten")) one_listing)).
    right; right; right. exists "ten". split; [reflexivity | vm_compute; reflexivity].
  - apply (proj2 (nearby_answers_400_or_500 dec_int dec_float manhattan
                    (NearbyArgs None None None (Some "-1")) one_listing)).
    intros [(s & Hs & _) | [(s & Hs & _) | [(s & Hs & _) | (s & Hs & Hp)]]];
      try discriminate Hs.
    injection Hs as <-. vm_compute in Hp. discriminate Hp.
  - apply (proj2 (nearby_answers_400_or_500 dec_int dec_float manhattan
                    no_nearby_args one_listing)).
    intros [(s & Hs & _) | [(s & Hs & _) | [(s & Hs & _) | (s & Hs & _)]]]; discriminate Hs.
Defined.

(** [limit=3] at the point of ten listings leaves out listing 10. *)
Lemma nearby_limit_drops_only_farther_witness :
  exists p, find_nearby_properties_dict dec_int dec_float manhattan
              (NearbyArgs (Some "1") (Some "2") None (Some "3")) ten_listings_at_2_1
            = Ok p /\
    length (nb_properties p) = Z.to_nat 3 /\
    Forall (fun y => distance_meters y <=
                     manhattan (st_geom_from_point_text 2 1)
                       (st_geom_from_point_text (snd (search_center p)) (fst (search_center p))))
      (nb_properties p).
Proof.
  exists_ok. first_by_computation H.
  apply (nearby_limit_drops_only_farther dec_int dec_float manhattan _ _ _ 3%Z
           (sample_row 10 (st_geom_from_point_text 2 1)) (st_geom_from_point_text 2 1) H).
  - vm_compute; reflexivity.
  - apply in_map_iff. exists 10%nat. split; [reflexivity | apply in_seq; lia].
  - reflexivity.
  - reflexivity.
  - apply Qle_bool_iff; vm_compute; reflexivity.
  - intros y Hy. vm_compute in Hy.
    repeat (destruct Hy as [Hy|Hy]; [subst y; intros E; vm_compute in E; discriminate E|]).
    destruct Hy.
Defined.

Lemma nearby_negative_radius_empty_witness :
  exists p, find_nearby_properties_dict dec_int dec_float manhattan
              (NearbyArgs None None (Some "-5") None) one_listing = Ok p /\
    (nb_properties p = [] /\ nb_total_found p = 0%nat).
Proof.
  exists_ok. first_by_computation H.
  apply (nearby_negative_radius_empty dec_int dec_float manhattan _ _ _ manhattan_nonneg H).
  vm_compute; reflexivity.
Defined.

Lemma add_property_store_effect_witness :
  (status (fst (add_property (Some (JObj body_at_1_2)) one_listing)) = 201%Z /\
   exists nid row,
     payload (fst (add_property (Some (JObj body_at_1_2)) one_listing))
       = Success (InsertPayload true nid "Property added successfully") /\
     nid = db_next_id one_listing /\
     db_rows (snd (add_property (Some (JObj body_at_1_2)) one_listing))
       = app (db_rows one_listing) [row] /\ id row = nid /\ location row <> None) \/
  (status (fst (add_property (Some (JObj body_at_1_2)) one_listing)) <> 201%Z /\
   db_rows (snd (add_property (Some (JObj body_at_1_2)) one_listing)) = db_rows one_listing).
Proof.
  apply (add_property_store_effect (Some (JObj body_at_1_2)) one_listing).
  vm_compute; reflexivity.
Defined.

(** A JSON array holding the four key names passes the key check, then
    [data['address']] fails on the list. *)
Lemma add_property_non_object_body_witness :
  (fst (add_property (Some (JArr [JStr "address"; JStr "price"; JStr "latitude";
                                  JStr "longitude"])) one_listing)
     = Response 400 (ErrorBody "Missing required fields") \/
   fst (add_property (Some (JArr [JStr "address"; JStr "price"; JStr "latitude";
                                  JStr "longitude"])) one_listing)
     = Response 500 (ErrorBody "Failed to add property")) /\
  snd (add_property (Some (JArr [JStr "address"; JStr "price"; JStr "latitude";
                                 JStr "longitude"])) one_listing) = one_listing.
Proof. apply add_property_non_object_body. intros kvs Hk. discriminate Hk. Defined.

Lemma health_location_count_bounded_witness :
  exists h, health_check one_listing "2026-01-01T00:00:00" = Response 200 (Success h) /\
    exists i v s, h = Healthy "2026-01-01T00:00:00" i v s /\
      (properties_with_location s <= total_properties s)%nat /\
      total_properties s = length (db_rows one_listing).
Proof.
  exists_response. first_by_computation H.
  exact (health_location_count_bounded _ _ _ H).
Defined.

Lemma health_after_insert_witness :
  exists i', health_check (snd (add_property (Some (JObj body_at_1_2)) one_listing))
               "2026-01-01T00:00:00"
             = Response 200 (Success (Healthy "2026-01-01T00:00:00" i'
                                        (HealthPostgis "3.4" true) (HealthSummary 2 2))).
Proof.
  apply (health_after_insert one_listing "2026-01-01T00:00:00" (Some (JObj body_at_1_2)) 2%Z _
           (HealthDatabase "PostgreSQL 15.4" "properties_db" "app" 0) (HealthPostgis "3.4" true)
           1%nat 1%nat); vm_compute; reflexivity.
Defined.
